(** * Account REST service: a shallow embedding of [service/routes.py]

    The handlers of [service/routes.py] are embedded as computations in a
    small reader/state/error monad: the reader is Flask's [request], the
    state is the table of accounts together with an observation log, and an
    error is an exception that ends the request ([abort], or the model's
    [DataValidationError]).

    [service/models.py], [service/common/status.py] and
    [service/common/error_handlers.py] are not part of the sources at hand;
    what the handlers need of them is modelled from the specification and
    marked as such. *)

From Stdlib Require Import Ascii String.
From stdpp Require Import gmap strings list fin_maps pretty.

Set Warnings "-register-all".
Set Default Proof Using "Type".

Open Scope Z_scope.
Open Scope string_scope.

(** ** JSON documents

    The value [request.get_json()] returns and [jsonify] consumes.  An object
    is a Python [dict], hence a finite map from keys to values.  Numbers are
    restricted to integers; no field of the service carries a float. *)

Inductive JSON : Type :=
  | JNull
  | JBool (b : bool)
  | JInt (z : Z)
  | JStr (s : string)
  | JArr (l : list JSON)
  | JObj (m : gmap string JSON).

(** Python's [None] becomes [null], a string stays a string. *)
Definition json_of_opt_str (o : option string) : JSON :=
  match o with
  | Some s => JStr s
  | None => JNull
  end.

Definition json_of_opt_int (o : option Z) : JSON :=
  match o with
  | Some z => JInt z
  | None => JNull
  end.

(** ** HTTP status codes *)

Module status.

(** Modelled from the spec: [service/common/status.py] is missing; the
    codes are the ones of the interface table (section 6). *)
Definition HTTP_200_OK : Z := 200.
Definition HTTP_201_CREATED : Z := 201.
Definition HTTP_204_NO_CONTENT : Z := 204.
Definition HTTP_400_BAD_REQUEST : Z := 400.
Definition HTTP_404_NOT_FOUND : Z := 404.
Definition HTTP_415_UNSUPPORTED_MEDIA_TYPE : Z := 415.

End status.

(** ** The Account model and its table *)

Module models.

(** Modelled from the spec: the Account entity of section 3, missing with
    [service/models.py].  Every attribute of a Python instance may be
    [None]; a fresh [Account()] has them all unset. *)
Record Account : Type := mkAccount {
  id : option Z;
  name : option string;
  email : option string;
  address : option string;
  phone_number : option string;
  date_joined : option string
}.

Definition blank : Account :=
  {| id := None; name := None; email := None; address := None;
     phone_number := None; date_joined := None |}.

(** Modelled from the spec: [Account.serialize], the flat JSON form of a
    record (glossary, "Serialize"). *)
Definition serialize (self : Account) : JSON :=
  JObj (list_to_map
    [ ("id", json_of_opt_int (id self));
      ("name", json_of_opt_str (name self));
      ("email", json_of_opt_str (email self));
      ("address", json_of_opt_str (address self));
      ("phone_number", json_of_opt_str (phone_number self));
      ("date_joined", json_of_opt_str (date_joined self)) ]).

(** A required field: present and a string. *)
Definition required (d : gmap string JSON) (k : string) : string + string :=
  match d !! k with
  | Some (JStr s) => inr s
  | Some _ => inl ("Invalid Account: bad type for " ++ k)
  | None => inl ("Invalid Account: missing " ++ k)
  end.

(** An optional field: absent or [null] gives the default, a string is
    taken, anything else is a type mismatch. *)
Definition optional (d : gmap string JSON) (k : string)
  : string + option string :=
  match d !! k with
  | None | Some JNull => inr None
  | Some (JStr s) => inr (Some s)
  | Some _ => inl ("Invalid Account: bad type for " ++ k)
  end.

(** Modelled from the spec: [Account.deserialize], missing with
    [service/models.py].  Sections 3, 4.1 and 9: [name] and [email] are
    required, the other profile fields are optional and defaulted, a
    missing required field or a type mismatch rejects the body, and every
    parsed field overwrites the instance's ([id] is never taken from the
    body).  The left result is the message of the [DataValidationError]. *)
Definition deserialize (self : Account) (data : JSON) : string + Account :=
  match data with
  | JObj d =>
      match required d "name" with
      | inl e => inl e
      | inr n =>
      match required d "email" with
      | inl e => inl e
      | inr m =>
      match optional d "address" with
      | inl e => inl e
      | inr a =>
      match optional d "phone_number" with
      | inl e => inl e
      | inr p =>
      match optional d "date_joined" with
      | inl e => inl e
      | inr dj =>
          inr {| id := id self; name := Some n; email := Some m;
                 address := a; phone_number := p; date_joined := dj |}
      end end end end end
  | _ => inl "Invalid Account: body of request contained bad or no data"
  end.

(** Modelled from the spec: the store of section 6, one table of Account
    records keyed by [id], and the sequence the store draws new ids
    from.  The store alone owns the durable state (section 3): an instance
    a handler holds is a value of its own, and only [create], [update] and
    [delete] write the table. *)
Record Store : Type := mkStore {
  rows : gmap Z Account;
  next_id : Z
}.

Definition empty : Store := {| rows := ∅; next_id := 1 |}.

(** Modelled from the spec: [Account.create], which persists the instance
    under a store-assigned id and leaves that id on the instance. *)
Definition create (self : Account) (s : Store) : Account * Store :=
  let self' :=
    {| id := Some (next_id s); name := name self; email := email self;
       address := address self; phone_number := phone_number self;
       date_joined := date_joined self |} in
  (self', {| rows := <[next_id s := self']> (rows s);
             next_id := next_id s + 1 |}).

(** Modelled from the spec: [Account.update], which persists the
    instance's fields under the instance's id. *)
Definition update (self : Account) (s : Store) : Store :=
  match id self with
  | Some k => {| rows := <[k := self]> (rows s); next_id := next_id s |}
  | None => s
  end.

(** Modelled from the spec: [Account.delete], which removes the
    instance's record for good. *)
Definition delete (self : Account) (s : Store) : Store :=
  match id self with
  | Some k => {| rows := base.delete k (rows s); next_id := next_id s |}
  | None => s
  end.

(** Modelled from the spec: [Account.all], every persisted record. *)
Definition all (s : Store) : list Account := (map_to_list (rows s)).*2.

(** Modelled from the spec: [Account.find], the record with that id, or
    [None]. *)
Definition find (by_id : Z) (s : Store) : option Account := rows s !! by_id.

End models.

(** ** The web framework: request, response and the handler monad *)

Module flask.

(** A request as the handlers see it.  Header names are in the spelling the
    handlers look them up by. *)
Record Request : Type := mkRequest {
  headers : gmap string string;   (* header name to value *)
  body : option JSON;             (* [None]: the bytes are not JSON *)
  host_url : string               (* scheme and host, no trailing slash *)
}.

Inductive Body : Type :=
  | json_body (j : JSON)
  | text_body (s : string).

Record Response : Type := mkResponse {
  status_code : Z;
  data : Body;
  response_headers : gmap string string
}.

(** What a handler does besides answering, in the order it does it: the
    body it parses, the statements it sends to the table. *)
Inductive Event : Type :=
  | JsonParse
  | DbSelect
  | DbInsert (a : models.Account)
  | DbUpdate (a : models.Account)
  | DbDelete (a : models.Account).

Record World : Type := mkWorld {
  db : models.Store;
  log : list Event
}.

(** The exceptions that leave a handler. *)
Inductive Exception : Type :=
  | HTTPException (code : Z) (description : string)
  | DataValidationError (message : string)
  | BuildError (endpoint : string).

Definition App (A : Type) : Type :=
  Request → World → (Exception + A) * World.

Definition ret {A} (a : A) : App A := λ _ w, (inr a, w).

Definition bind {A B} (m : App A) (k : A → App B) : App B :=
  λ req w,
    match m req w with
    | (inl e, w') => (inl e, w')
    | (inr a, w') => k a req w'
    end.

Definition raise {A} (e : Exception) : App A := λ _ w, (inl e, w).

Definition abort {A} (code : Z) (description : string) : App A :=
  raise (HTTPException code description).

Definition request : App Request := λ req w, (inr req, w).

Definition emit (e : Event) : App unit :=
  λ _ w, (inr tt, {| db := db w; log := log w ++ [e] |}).

(** Reading the table, and changing it. *)
Definition query {A} (f : models.Store → A) : App A :=
  λ _ w, (inr (f (db w)), w).

Definition execute {A} (f : models.Store → A * models.Store) : App A :=
  λ _ w, (inr (f (db w)).1, {| db := (f (db w)).2; log := log w |}).

(** *** The declared media type *)

Definition lower_ascii (c : ascii) : ascii :=
  let n := nat_of_ascii c in
  if ((65 <=? n) && (n <=? 90))%nat then ascii_of_nat (n + 32) else c.

Fixpoint lower (s : string) : string :=
  match s with
  | EmptyString => EmptyString
  | String c r => String (lower_ascii c) (lower r)
  end.

Fixpoint before_semicolon (s : string) : string :=
  match s with
  | EmptyString => EmptyString
  | String c r =>
      if Ascii.eqb c ";"%char then EmptyString
      else String c (before_semicolon r)
  end.

Fixpoint lstrip (s : string) : string :=
  match s with
  | EmptyString => EmptyString
  | String c r => if Ascii.is_space c then lstrip r else s
  end.

Fixpoint rstrip (s : string) : string :=
  match s with
  | EmptyString => EmptyString
  | String c r =>
      let r' := rstrip r in
      if Ascii.is_space c && String.eqb r' EmptyString then EmptyString
      else String c r'
  end.

(** [request.mimetype]: the content type without its parameters, in lower
    case; the empty string when the header is absent. *)
Definition mimetype (req : Request) : string :=
  match headers req !! "Content-Type" with
  | Some v => lower (rstrip (lstrip (before_semicolon v)))
  | None => ""
  end.

(** The request declares the media type [application/json]. *)
Definition declares_json (req : Request) : bool :=
  String.eqb (mimetype req) "application/json".

Definition ends_with (suffix s : string) : bool :=
  String.prefix (String.rev suffix) (String.rev s).

(** [request.is_json]: [application/json] or [application/*+json]. *)
Definition is_json (req : Request) : bool :=
  declares_json req
  || (String.prefix "application/" (mimetype req)
      && ends_with "+json" (mimetype req)).

(** [request.get_json()]: refuses a request that does not declare JSON,
    then parses the body, and fails with 400 on a body that is not JSON. *)
Definition get_json : App JSON :=
  bind request (λ req,
    if is_json req then
      bind (emit JsonParse) (λ _,
        match body req with
        | Some j => ret j
        | None =>
            abort status.HTTP_400_BAD_REQUEST
              "Failed to decode JSON object"
        end)
    else
      abort status.HTTP_415_UNSUPPORTED_MEDIA_TYPE
        "Did not attempt to load JSON data because the request Content-Type was not 'application/json'.").

(** [jsonify(x)]: a 200 response whose body is the document [x]. *)
Definition jsonify (j : JSON) : Response :=
  {| status_code := status.HTTP_200_OK;
     data := json_body j;
     response_headers := {[ "Content-Type" := "application/json" ]} |}.

(** A bare string returned by a view. *)
Definition text (s : string) : Response :=
  {| status_code := status.HTTP_200_OK;
     data := text_body s;
     response_headers := {[ "Content-Type" := "text/html; charset=utf-8" ]} |}.

Definition set_headers (extra : list (string * string))
    (h : gmap string string) : gmap string string :=
  foldl (λ acc kv, <[kv.1 := kv.2]> acc) h extra.

(** [make_response(rv, status, headers)], also what Flask does with a
    tuple a view returns. *)
Definition make_response (rv : Response) (code : Z)
    (extra : list (string * string)) : Response :=
  {| status_code := code;
     data := data rv;
     response_headers := set_headers extra (response_headers rv) |}.

(** The [int] converter of a URL rule: one digit or more, read in base
    ten. *)
Fixpoint digits_value (acc : N) (s : string) : option N :=
  match s with
  | EmptyString => Some acc
  | String c r =>
      match Ascii.is_nat c with
      | Some d => digits_value (10 * acc + N.of_nat d) r
      | None => None
      end
  end.

Definition int_converter (s : string) : option Z :=
  match s with
  | EmptyString => None
  | _ => Z.of_N <$> digits_value 0 s
  end.

(** What is left of [s] after the prefix [p], if [s] starts with it. *)
Fixpoint strip_prefix (p s : string) : option string :=
  match p, s with
  | EmptyString, _ => Some s
  | String a p', String b s' =>
      if Ascii.eqb a b then strip_prefix p' s' else None
  | String _ _, EmptyString => None
  end.

(** The path the rule [/accounts/<int:account_id>] builds for an id. *)
Definition get_account_path (account_id : Z) : string :=
  "/accounts/" ++ pretty account_id.

(** [url_for("get_account", account_id=..., _external=True)]. *)
Definition url_for_get_account (account_id : option Z) : App string :=
  bind request (λ req,
    match account_id with
    | Some k => ret (host_url req ++ get_account_path k)
    | None => raise (BuildError "get_account")
    end).

(** Modelled from the spec: how an exception becomes a response
    ([service/common/error_handlers.py] is missing).  Section 7: an abort
    answers with its own status, a rejected body is a [BadRequest], any
    other failure is a generic server error. *)
Definition error_status (e : Exception) : Z :=
  match e with
  | HTTPException code _ => code
  | DataValidationError _ => status.HTTP_400_BAD_REQUEST
  | BuildError _ => 500
  end.

Definition error_message (e : Exception) : string :=
  match e with
  | HTTPException _ m | DataValidationError m | BuildError m => m
  end.

Definition error_response (e : Exception) : Response :=
  make_response
    (jsonify (JObj (list_to_map
       [ ("status", JInt (error_status e));
         ("message", JStr (error_message e)) ])))
    (error_status e) [].

(** One request served from start to finish. *)
Definition serve (view : App Response) (req : Request) (w : World)
  : Response * World :=
  match view req w with
  | (inr resp, w') => (resp, w')
  | (inl e, w') => (error_response e, w')
  end.

End flask.

(** Handlers are written with stdpp's monadic notation. *)
#[global] Instance App_ret : MRet flask.App := @flask.ret.
#[global] Instance App_bind : MBind flask.App := λ A B k m, flask.bind m k.

(** ** The model's operations as a handler calls them *)

Module Account.
Import flask.

Definition deserialize (self : models.Account) (data : JSON)
  : App models.Account :=
  match models.deserialize self data with
  | inr a => ret a
  | inl message => raise (DataValidationError message)
  end.

Definition create (self : models.Account) : App models.Account :=
  a ← execute (models.create self);
  emit (DbInsert a);;
  ret a.

Definition update (self : models.Account) : App unit :=
  execute (λ s, (tt, models.update self s));;
  emit (DbUpdate self).

Definition delete (self : models.Account) : App unit :=
  execute (λ s, (tt, models.delete self s));;
  emit (DbDelete self).

Definition all : App (list models.Account) :=
  emit DbSelect;;
  query models.all.

Definition find (by_id : Z) : App (option models.Account) :=
  emit DbSelect;;
  query (models.find by_id).

End Account.

(** ** [service/routes.py] *)

Module routes.
Import flask.

(** Health Status *)
Definition health : App Response :=
  ret (make_response
         (jsonify (JObj (list_to_map [("status", JStr "OK")])))
         status.HTTP_200_OK []).

(** Root URL response *)
Definition index : App Response :=
  ret (make_response
         (jsonify (JObj (list_to_map
            [ ("name", JStr "Account REST API Service");
              ("version", JStr "1.0") ])))
         status.HTTP_200_OK []).

(** Checks that the media type is correct *)
Definition check_content_type (media_type : string) : App unit :=
  req ← request;
  if decide (headers req !! "Content-Type" ≠ Some media_type) then
    abort status.HTTP_415_UNSUPPORTED_MEDIA_TYPE
      ("Content-Type must be " ++ media_type)
  else ret tt.

(** Creates an Account *)
Definition create_account : App Response :=
  check_content_type "application/json";;
  account_data ← get_json;
  let account := models.blank in
  account ← Account.deserialize account account_data;
  account ← Account.create account;
  location ← url_for_get_account (models.id account);
  ret (make_response
         (jsonify (models.serialize account))
         status.HTTP_201_CREATED
         [("Location", location)]).

(** Returns all Accounts *)
Definition list_accounts : App Response :=
  accounts ← Account.all;
  let results := models.serialize <$> accounts in
  ret (make_response (jsonify (JArr results)) status.HTTP_200_OK []).

Definition not_found_message (account_id : Z) : string :=
  "Account with id " ++ pretty account_id ++ " not found.".

(** Returns an Account by ID *)
Definition get_account (account_id : Z) : App Response :=
  account ← Account.find account_id;
  match account with
  | None =>
      abort status.HTTP_404_NOT_FOUND (not_found_message account_id)
  | Some account =>
      ret (make_response (jsonify (models.serialize account))
             status.HTTP_200_OK [])
  end.

(** Updates an Account *)
Definition update_account (account_id : Z) : App Response :=
  check_content_type "application/json";;
  account ← Account.find account_id;
  match account with
  | None =>
      abort status.HTTP_404_NOT_FOUND (not_found_message account_id)
  | Some account =>
      account_data ← get_json;
      account ← Account.deserialize account account_data;
      Account.update account;;
      ret (make_response (jsonify (models.serialize account))
             status.HTTP_200_OK [])
  end.

(** Deletes an Account *)
Definition delete_account (account_id : Z) : App Response :=
  account ← Account.find account_id;
  match account with
  | Some account => Account.delete account
  | None => ret tt
  end;;
  ret (make_response (text "") status.HTTP_204_NO_CONTENT []).

(** The URL rules the [@app.route] decorators register: the view that
    answers a method and a path, if a rule matches. *)
Definition dispatch (method path : string) : option (App Response) :=
  if String.eqb path "/health" then
    if String.eqb method "GET" then Some health else None
  else if String.eqb path "/" then
    if String.eqb method "GET" then Some index else None
  else if String.eqb path "/accounts" then
    if String.eqb method "POST" then Some create_account
    else if String.eqb method "GET" then Some list_accounts
    else None
  else
    match strip_prefix "/accounts/" path with
    | Some segment =>
        match int_converter segment with
        | Some account_id =>
            if String.eqb method "GET" then Some (get_account account_id)
            else if String.eqb method "PUT" then
              Some (update_account account_id)
            else if String.eqb method "DELETE" then
              Some (delete_account account_id)
            else None
        | None => None
        end
    | None => None
    end.

End routes.

(** * Vocabulary of the statements *)

Import flask.

(** ** Reading requests, responses and documents *)

Definition content_type (req : Request) : option string :=
  headers req !! "Content-Type".

(** The request [req] with another body. *)
Definition with_body (b : option JSON) (req : Request) : Request :=
  {| headers := headers req; body := b; host_url := host_url req |}.

(** The field [k] of a JSON document, if it is an object that has one. *)
Definition field (j : JSON) (k : string) : option JSON :=
  match j with
  | JObj d => d !! k
  | _ => None
  end.

(** The [id] a client reads off a response body. *)
Definition response_id (resp : Response) : option Z :=
  match data resp with
  | json_body j =>
      match field j "id" with
      | Some (JInt k) => Some k
      | _ => None
      end
  | text_body _ => None
  end.

(** The account [a] under the id [k]. *)
Definition with_id (k : option Z) (a : models.Account) : models.Account :=
  {| models.id := k; models.name := models.name a;
     models.email := models.email a; models.address := models.address a;
     models.phone_number := models.phone_number a;
     models.date_joined := models.date_joined a |}.

(** ** The answers and failures of the handlers *)

(** The world [w] after the events [evs] were logged. *)
Definition logged (evs : list Event) (w : World) : World :=
  {| db := db w; log := log w ++ evs |}.

Definition created_response (req : Request) (k : Z) (a : models.Account)
  : Response :=
  make_response (jsonify (models.serialize a)) status.HTTP_201_CREATED
    [("Location", host_url req ++ get_account_path k)].

Definition ok_response (j : JSON) : Response :=
  make_response (jsonify j) status.HTTP_200_OK [].

Definition no_content : Response :=
  make_response (text "") status.HTTP_204_NO_CONTENT [].

Definition unsupported : Exception :=
  HTTPException status.HTTP_415_UNSUPPORTED_MEDIA_TYPE
    "Content-Type must be application/json".

Definition undecodable : Exception :=
  HTTPException status.HTTP_400_BAD_REQUEST "Failed to decode JSON object".

Definition not_found (account_id : Z) : Exception :=
  HTTPException status.HTTP_404_NOT_FOUND
    (routes.not_found_message account_id).

(** ** The table's invariant *)

(** The ids drawn so far are positive, every row sits under its own id, and
    that id is below the next one to be drawn. *)
Definition store_wf (s : models.Store) : Prop :=
  0 < models.next_id s
  ∧ ∀ k a, models.rows s !! k = Some a →
      models.id a = Some k ∧ k < models.next_id s.

(** The worlds the service can be in: the empty store, and what any
    request answered by a rule makes of a reachable world. *)
Inductive reachable : World → Prop :=
  | reachable_start (evs : list Event) :
      reachable {| db := models.empty; log := evs |}
  | reachable_step (method path : string) (view : App Response)
        (req : Request) (w : World) :
      reachable w →
      routes.dispatch method path = Some view →
      reachable (serve view req w).2.

(** ** Sequences of Create and Delete requests *)

Inductive Op : Type :=
  | Create (req : Request)
  | Delete (account_id : Z) (req : Request).

Definition perform (op : Op) (w : World) : Response * World :=
  match op with
  | Create req => serve routes.create_account req w
  | Delete account_id req => serve (routes.delete_account account_id) req w
  end.

(** The requests [ops] served one after the other, the first one first. *)
Fixpoint run (ops : list Op) (w : World) : World :=
  match ops with
  | [] => w
  | op :: ops => run ops (perform op w).2
  end.

(** A Create made a record when it was answered 201. *)
Definition creates (op : Op) (w : World) : bool :=
  match op with
  | Create _ =>
      bool_decide (status_code (perform op w).1 = status.HTTP_201_CREATED)
  | Delete _ _ => false
  end.

(** A Delete removed a record when its id was there. *)
Definition deletes (op : Op) (w : World) : bool :=
  match op with
  | Create _ => false
  | Delete account_id _ =>
      bool_decide (is_Some (models.find account_id (db w)))
  end.

(** The number of records created and the number deleted along [ops]. *)
Fixpoint created (ops : list Op) (w : World) : nat :=
  match ops with
  | [] => 0
  | op :: ops =>
      (if creates op w then 1 else 0) + created ops (perform op w).2
  end%nat.

Fixpoint deleted (ops : list Op) (w : World) : nat :=
  match ops with
  | [] => 0
  | op :: ops =>
      (if deletes op w then 1 else 0) + deleted ops (perform op w).2
  end%nat.

(** ** Concrete requests and worlds *)

Definition jane : JSON :=
  JObj (list_to_map
    [ ("name", JStr "Jane Doe"); ("email", JStr "jane@example.com") ]).

(** [jane] as [deserialize] reads it. *)
Definition jane_account : models.Account :=
  {| models.id := None; models.name := Some "Jane Doe";
     models.email := Some "jane@example.com"; models.address := None;
     models.phone_number := None; models.date_joined := None |}.

Definition renamed : JSON :=
  JObj (list_to_map
    [ ("name", JStr "Updated Name"); ("email", JStr "jane@example.com");
      ("address", JNull); ("phone_number", JStr "555-0100") ]).

(** [renamed] as [deserialize] reads it. *)
Definition renamed_account : models.Account :=
  {| models.id := None; models.name := Some "Updated Name";
     models.email := Some "jane@example.com"; models.address := None;
     models.phone_number := Some "555-0100"; models.date_joined := None |}.

Definition nameless : JSON :=
  JObj (list_to_map [ ("email", JStr "jane@example.com") ]).

Definition incomplete : JSON :=
  JObj (list_to_map [ ("name", JStr "incomplete") ]).

Definition json_request (payload : JSON) : Request :=
  {| headers := {[ "Content-Type" := "application/json" ]};
     body := Some payload;
     host_url := "http://localhost" |}.

Definition html_request (payload : JSON) : Request :=
  {| headers := {[ "Content-Type" := "text/html" ]};
     body := Some payload;
     host_url := "http://localhost" |}.

Definition bare_request : Request :=
  {| headers := ∅; body := None; host_url := "http://localhost" |}.

Definition fresh_world : World := {| db := models.empty; log := [] |}.

(** The world after one account has been created in [fresh_world]. *)
Definition jane_world : World :=
  (serve routes.create_account (json_request jane) fresh_world).2.

(** ** The views behind the URL rules *)

(** [routed method view]: some path sent with [method] is answered by
    [view]. *)
Inductive routed : string → App Response → Prop :=
  | routed_health : routed "GET" routes.health
  | routed_index : routed "GET" routes.index
  | routed_create_account : routed "POST" routes.create_account
  | routed_list_accounts : routed "GET" routes.list_accounts
  | routed_get_account (account_id : Z) :
      (0 ≤ account_id)%Z → routed "GET" (routes.get_account account_id)
  | routed_update_account (account_id : Z) :
      (0 ≤ account_id)%Z → routed "PUT" (routes.update_account account_id)
  | routed_delete_account (account_id : Z) :
      (0 ≤ account_id)%Z →
      routed "DELETE" (routes.delete_account account_id).

(** ** [tests/test_routes.py]: the test client and the fixtures *)

Module tests.

Definition BASE_URL : string := "/accounts".

(** [self.client.open]: one request sent to the application through its
    URL rules.  [json=] gives the body and, unless a content type is given,
    the header [application/json]; without it there is neither body nor
    header.  [None]: no rule matches, the answer is the framework's own and
    no view runs. *)
Definition client_open (method path : string) (content_type : option string)
    (json : option JSON) (w : World) : option (Response * World) :=
  let given :=
    match content_type, json with
    | Some ct, _ => Some ct
    | None, Some _ => Some "application/json"
    | None, None => None
    end in
  let req :=
    {| headers :=
         match given with
         | Some ct => {[ "Content-Type" := ct ]}
         | None => ∅
         end;
       body := json;
       host_url := "http://localhost" |} in
  match routes.dispatch method path with
  | Some view => Some (serve view req w)
  | None => None
  end.

Definition get (path : string) : World → option (Response * World) :=
  client_open "GET" path None None.

Definition delete (path : string) : World → option (Response * World) :=
  client_open "DELETE" path None None.

Definition post (path : string) (json : JSON)
  : World → option (Response * World) :=
  client_open "POST" path None (Some json).

Definition put (path : string) (json : JSON)
  : World → option (Response * World) :=
  client_open "PUT" path None (Some json).

(** [response.get_json()] *)
Definition get_json (resp : Response) : option JSON :=
  match data resp with
  | json_body j => Some j
  | text_body _ => None
  end.

(** The path [f"{BASE_URL}/{account['id']}"] for an integer id. *)
Definition account_url (k : Z) : string := BASE_URL ++ "/" ++ pretty k.

(** [setUp]: [db.session.query(Account).delete()] empties the table; the
    sequence of ids is left where it was. *)
Definition setUp (w : World) : World :=
  {| db := {| models.rows := ∅; models.next_id := models.next_id (db w) |};
     log := log w |}.

End tests.

(** * Properties *)

(** ** The content-type check *)

Ltac app_unfold :=
  unfold mbind, mret, App_bind, App_ret, bind, ret, raise, abort,
    request, emit, query, execute in *.

Section content_type.

Lemma check_content_type_pass media_type req w :
  content_type req = Some media_type →
  routes.check_content_type media_type req w = (inr tt, w).
Proof.
  unfold routes.check_content_type, content_type. app_unfold.
  intros ->. by rewrite decide_False by (intros H; by apply H).
Qed.

Lemma check_content_type_abort media_type req w :
  content_type req ≠ Some media_type →
  routes.check_content_type media_type req w =
    (inl (HTTPException status.HTTP_415_UNSUPPORTED_MEDIA_TYPE
            ("Content-Type must be " ++ media_type)), w).
Proof.
  unfold routes.check_content_type, content_type. app_unfold.
  intros H. by rewrite decide_True.
Qed.

(** The exact header value is one that declares JSON, so [get_json]
    goes on to parse once the check has passed. *)
Lemma exact_declares_json req :
  content_type req = Some "application/json" → declares_json req = true.
Proof.
  unfold declares_json, mimetype, content_type. by intros ->.
Qed.

Lemma exact_is_json req :
  content_type req = Some "application/json" → is_json req = true.
Proof. intros H. unfold is_json. by rewrite exact_declares_json. Qed.

End content_type.

(** ** What each handler computes *)

Section handlers.

Implicit Types (req : Request) (w : World) (account_id : Z).

Lemma get_json_run req w :
  content_type req = Some "application/json" →
  get_json req w =
    match body req with
    | Some j => (inr j, logged [JsonParse] w)
    | None => (inl undecodable, logged [JsonParse] w)
    end.
Proof.
  intros H. unfold get_json. app_unfold.
  rewrite (exact_is_json _ H). by destruct (body req).
Qed.

Lemma create_account_unsupported req w :
  content_type req ≠ Some "application/json" →
  routes.create_account req w = (inl unsupported, w).
Proof.
  intros H. unfold routes.create_account.
  unfold mbind at 1, App_bind at 1, bind at 1.
  by rewrite check_content_type_abort.
Qed.

Lemma create_account_run req w :
  content_type req = Some "application/json" →
  routes.create_account req w =
    match body req with
    | None => (inl undecodable, logged [JsonParse] w)
    | Some j =>
        match models.deserialize models.blank j with
        | inl message =>
            (inl (DataValidationError message), logged [JsonParse] w)
        | inr a =>
            let a' := (models.create a (db w)).1 in
            (inr (created_response req (models.next_id (db w)) a'),
             {| db := (models.create a (db w)).2;
                log := log w ++ [JsonParse; DbInsert a'] |})
        end
    end.
Proof.
  intros H. unfold routes.create_account.
  unfold mbind at 1, App_bind at 1, bind at 1.
  rewrite check_content_type_pass by done.
  unfold mbind at 1, App_bind at 1, bind at 1.
  rewrite get_json_run by done.
  destruct (body req) as [j|]; [|done].
  unfold Account.deserialize.
  destruct (models.deserialize models.blank j) as [m|a]; [done|].
  unfold Account.create, url_for_get_account, created_response, logged.
  app_unfold. simpl. by rewrite <- app_assoc.
Qed.

Lemma list_accounts_run req w :
  routes.list_accounts req w =
    (inr (ok_response (JArr (models.serialize <$> models.all (db w)))),
     logged [DbSelect] w).
Proof. done. Qed.

Lemma get_account_run account_id req w :
  routes.get_account account_id req w =
    match models.find account_id (db w) with
    | Some a =>
        (inr (ok_response (models.serialize a)), logged [DbSelect] w)
    | None => (inl (not_found account_id), logged [DbSelect] w)
    end.
Proof.
  unfold routes.get_account, Account.find. app_unfold. simpl.
  by destruct (models.find account_id (db w)).
Qed.

Lemma update_account_unsupported account_id req w :
  content_type req ≠ Some "application/json" →
  routes.update_account account_id req w = (inl unsupported, w).
Proof.
  intros H. unfold routes.update_account.
  unfold mbind at 1, App_bind at 1, bind at 1.
  by rewrite check_content_type_abort.
Qed.

Lemma update_account_run account_id req w :
  content_type req = Some "application/json" →
  routes.update_account account_id req w =
    match models.find account_id (db w) with
    | None => (inl (not_found account_id), logged [DbSelect] w)
    | Some a =>
        match body req with
        | None => (inl undecodable, logged [DbSelect; JsonParse] w)
        | Some j =>
            match models.deserialize a j with
            | inl message =>
                (inl (DataValidationError message),
                 logged [DbSelect; JsonParse] w)
            | inr a' =>
                (inr (ok_response (models.serialize a')),
                 {| db := models.update a' (db w);
                    log := log w ++ [DbSelect; JsonParse; DbUpdate a'] |})
            end
        end
    end.
Proof.
  intros H. unfold routes.update_account.
  unfold mbind at 1, App_bind at 1, bind at 1.
  rewrite check_content_type_pass by done.
  unfold Account.find.
  unfold mbind at 1 2, App_bind at 1 2, bind at 1 2, emit, query. simpl.
  destruct (models.find account_id (db w)) as [a|]; [|done].
  unfold mbind at 1, App_bind at 1, bind at 1.
  rewrite get_json_run by done.
  destruct (body req) as [j|];
    [|unfold logged; simpl; by rewrite <- app_assoc].
  unfold Account.deserialize.
  destruct (models.deserialize a j) as [m|a'];
    [unfold logged; app_unfold; simpl; by rewrite <- app_assoc|].
  unfold Account.update, logged. app_unfold. simpl.
  by rewrite <- !app_assoc.
Qed.

Lemma delete_account_run account_id req w :
  routes.delete_account account_id req w =
    match models.find account_id (db w) with
    | Some a =>
        (inr no_content,
         {| db := models.delete a (db w);
            log := log w ++ [DbSelect; DbDelete a] |})
    | None => (inr no_content, logged [DbSelect] w)
    end.
Proof.
  unfold routes.delete_account, Account.find, Account.delete.
  app_unfold. simpl.
  destruct (models.find account_id (db w)); [|done].
  simpl. by rewrite <- app_assoc.
Qed.

End handlers.

(** ** Content type: claims C4, C9 and C10 *)

(** C4.  A Create request whose [Content-Type] header is not
    [application/json] is answered 415 whatever its body is; nothing is
    logged, so the body was never parsed, and the table is as it was.  By
    [exact_declares_json] the hypothesis holds of every request that does
    not declare JSON. *)
Theorem create_non_json_unsupported (req : Request) (w : World) :
  content_type req ≠ Some "application/json" →
  let answer := serve routes.create_account req w in
  status_code answer.1 = status.HTTP_415_UNSUPPORTED_MEDIA_TYPE
  ∧ log answer.2 = log w
  ∧ db answer.2 = db w
  ∧ ∀ b, serve routes.create_account (with_body b req) w = answer.
Proof.
  intros H answer. subst answer. unfold serve.
  rewrite create_account_unsupported by done.
  repeat split. intros b.
  by rewrite create_account_unsupported.
Qed.

Lemma create_non_json_unsupported_witness :
  content_type (html_request jane) ≠ Some "application/json"
  ∧ status_code (serve routes.create_account (html_request jane) fresh_world).1
    = 415.
Proof.
  split; [done|].
  apply (create_non_json_unsupported (html_request jane) fresh_world). done.
Defined.

(** C9.  Update checks the content type before it looks the id up: a PUT
    whose [Content-Type] is not [application/json] is answered 415, never
    404, whether or not the id exists, and the table is not even read. *)
Theorem update_non_json_unsupported_first
    (account_id : Z) (req : Request) (w : World) :
  content_type req ≠ Some "application/json" →
  let answer := serve (routes.update_account account_id) req w in
  status_code answer.1 = status.HTTP_415_UNSUPPORTED_MEDIA_TYPE
  ∧ status_code answer.1 ≠ status.HTTP_404_NOT_FOUND
  ∧ answer.2 = w.
Proof.
  intros H answer. subst answer. unfold serve.
  by rewrite update_account_unsupported.
Qed.

Lemma update_non_json_unsupported_first_witness :
  content_type (html_request jane) ≠ Some "application/json"
  ∧ models.find 999999 (db fresh_world) = None
  ∧ status_code
      (serve (routes.update_account 999999) (html_request jane) fresh_world).1
    = 415.
Proof.
  split; [done|]. split; [done|].
  apply (update_non_json_unsupported_first
           999999 (html_request jane) fresh_world). done.
Defined.

(** C10.  The check passes exactly when the header equals the media type
    character for character.  A request with
    [Content-Type: application/json; charset=utf-8], which declares JSON, and
    a request without the header are both answered 415 by Create and by
    Update, whatever else they carry. *)
Theorem content_type_check_is_exact :
  (∀ media_type req w,
     routes.check_content_type media_type req w = (inr tt, w)
     ↔ content_type req = Some media_type)
  ∧ (∀ hs b h w account_id,
       let req :=
         {| headers := <["Content-Type" := "application/json; charset=utf-8"]> hs;
            body := b; host_url := h |} in
       declares_json req = true
       ∧ status_code (serve routes.create_account req w).1
         = status.HTTP_415_UNSUPPORTED_MEDIA_TYPE
       ∧ status_code (serve (routes.update_account account_id) req w).1
         = status.HTTP_415_UNSUPPORTED_MEDIA_TYPE)
  ∧ (∀ hs b h w account_id,
       let req :=
         {| headers := delete "Content-Type" hs; body := b; host_url := h |} in
       status_code (serve routes.create_account req w).1
         = status.HTTP_415_UNSUPPORTED_MEDIA_TYPE
       ∧ status_code (serve (routes.update_account account_id) req w).1
         = status.HTTP_415_UNSUPPORTED_MEDIA_TYPE).
Proof.
  split; [|split].
  - intros media_type req w. split.
    + intros H. destruct (decide (content_type req = Some media_type)) as [|N];
        [done|].
      rewrite check_content_type_abort in H by done. discriminate.
    + apply check_content_type_pass.
  - intros hs b h w account_id req.
    assert (content_type req = Some "application/json; charset=utf-8") as E.
    { unfold content_type, req. simpl. apply lookup_insert_eq. }
    assert (content_type req ≠ Some "application/json") as N.
    { rewrite E. discriminate. }
    split.
    { unfold declares_json, mimetype. fold (content_type req). by rewrite E. }
    unfold serve.
    by rewrite create_account_unsupported, update_account_unsupported.
  - intros hs b h w account_id req.
    assert (content_type req ≠ Some "application/json") as N.
    { unfold content_type, req. simpl. by rewrite lookup_delete_eq. }
    unfold serve.
    by rewrite create_account_unsupported, update_account_unsupported.
Qed.

(** ** Delete and Read: claims C2 and C3 *)

(** C2.  Delete answers 204 with an empty body for every id, present or
    not; when the id is absent the table is only read, never written; and a
    second Delete of the same id gives the very same response. *)
Theorem delete_always_no_content
    (account_id : Z) (req req' : Request) (w : World) :
  let first := serve (routes.delete_account account_id) req w in
  let second := serve (routes.delete_account account_id) req' first.2 in
  status_code first.1 = status.HTTP_204_NO_CONTENT
  ∧ data first.1 = text_body ""
  ∧ (models.find account_id (db w) = None →
       db first.2 = db w ∧ log first.2 = (log w ++ [DbSelect])%list)
  ∧ second.1 = first.1.
Proof.
  intros first second. subst first second. unfold serve.
  rewrite !delete_account_run.
  destruct (models.find account_id (db w)) as [a|] eqn:E; simpl.
  - split_and!; [done..|].
    by destruct (models.find account_id (models.delete a (db w))).
  - by rewrite E.
Qed.

(** C3.  Read answers 200 with the serialized record when the id exists and
    404 when it does not; either way the table is only read. *)
Theorem get_account_found_or_404 (account_id : Z) (req : Request) (w : World) :
  let answer := serve (routes.get_account account_id) req w in
  db answer.2 = db w
  ∧ log answer.2 = (log w ++ [DbSelect])%list
  ∧ match models.find account_id (db w) with
    | Some a =>
        status_code answer.1 = status.HTTP_200_OK
        ∧ data answer.1 = json_body (models.serialize a)
    | None => status_code answer.1 = status.HTTP_404_NOT_FOUND
    end.
Proof.
  intros answer. subst answer. unfold serve. rewrite get_account_run.
  by destruct (models.find account_id (db w)).
Qed.

(** ** The model: serialization and the table's invariant *)

Section model.

Implicit Types (a : models.Account) (s : models.Store) (k : Z).

Lemma field_serialize_id a :
  field (models.serialize a) "id" = Some (json_of_opt_int (models.id a)).
Proof. by destruct a. Qed.

Lemma field_serialize_name a :
  field (models.serialize a) "name" = Some (json_of_opt_str (models.name a)).
Proof. by destruct a. Qed.

Lemma field_serialize_email a :
  field (models.serialize a) "email"
  = Some (json_of_opt_str (models.email a)).
Proof. by destruct a. Qed.

(** What a successful [deserialize] read, and from where. *)
Lemma deserialize_inr self data a :
  models.deserialize self data = inr a →
  ∃ n m,
    field data "name" = Some (JStr n)
    ∧ field data "email" = Some (JStr m)
    ∧ models.name a = Some n
    ∧ models.email a = Some m
    ∧ models.id a = models.id self.
Proof.
  destruct data as [| | | | |d]; try discriminate. simpl.
  unfold models.required.
  destruct (d !! "name") as [[| | |n| |]|]; try discriminate.
  destruct (d !! "email") as [[| | |m| |]|]; try discriminate.
  destruct (models.optional d "address"); try discriminate.
  destruct (models.optional d "phone_number"); try discriminate.
  destruct (models.optional d "date_joined"); try discriminate.
  intros [= <-]. by exists n, m.
Qed.

(** The instance deserialized into matters for its [id] only: the parsed
    fields replace all the others. *)
Lemma deserialize_replaces self self' data :
  models.deserialize self data
  = match models.deserialize self' data with
    | inl e => inl e
    | inr a => inr (with_id (models.id self) a)
    end.
Proof.
  destruct data as [| | | | |d]; try done. simpl.
  destruct (models.required d "name"); [done|].
  destruct (models.required d "email"); [done|].
  destruct (models.optional d "address"); [done|].
  destruct (models.optional d "phone_number"); [done|].
  by destruct (models.optional d "date_joined").
Qed.

Lemma deserialize_missing_name self data :
  field data "name" = None → ∃ e, models.deserialize self data = inl e.
Proof.
  destruct data as [| | | | |d]; simpl; eauto.
  unfold models.required. intros ->. eauto.
Qed.

Lemma empty_wf : store_wf models.empty.
Proof. split; [done|]. intros k a. simpl. by rewrite lookup_empty. Qed.

Lemma wf_next_id_free s :
  store_wf s → models.rows s !! models.next_id s = None.
Proof.
  intros [_ W]. destruct (models.rows s !! models.next_id s) as [a|] eqn:E;
    [|done].
  apply W in E as [_ ?]. lia.
Qed.

Lemma wf_row_id s k a :
  store_wf s → models.find k s = Some a → models.id a = Some k.
Proof. intros [_ W] H. by apply W in H as [? _]. Qed.

Lemma create_wf a s : store_wf s → store_wf (models.create a s).2.
Proof.
  intros [P W]. split; [simpl; lia|]. intros k b. simpl.
  rewrite lookup_insert. case_decide as E.
  - intros [= <-]. subst k. simpl. split; [done|lia].
  - intros H. apply W in H as [? ?]. split; [done|lia].
Qed.

Lemma update_wf a s k :
  store_wf s → models.id a = Some k → is_Some (models.rows s !! k) →
  store_wf (models.update a s).
Proof.
  intros [P W] I [old O]. unfold models.update. rewrite I.
  split; [done|]. intros j b. simpl.
  rewrite lookup_insert. case_decide as E.
  - intros [= <-]. subst j. split; [done|]. by apply W in O as [_ ?].
  - apply W.
Qed.

Lemma delete_wf a s : store_wf s → store_wf (models.delete a s).
Proof.
  intros [P W]. unfold models.delete. destruct (models.id a) as [k|];
    [|done].
  split; [done|]. intros j b. simpl.
  rewrite lookup_delete. case_decide; [done|apply W].
Qed.

End model.

(** ** URLs: the path built for an id leads back to that id *)

Section urls.

Lemma is_nat_pretty_N_char (d : N) :
  (d < 10)%N → Ascii.is_nat (pretty_N_char d) = Some (N.to_nat d).
Proof.
  intros H.
  assert (d = 0 ∨ d = 1 ∨ d = 2 ∨ d = 3 ∨ d = 4 ∨ d = 5 ∨ d = 6 ∨ d = 7
          ∨ d = 8 ∨ d = 9)%N as D by lia.
  by repeat destruct D as [->|D]; try subst d.
Qed.

(** Reading the digits [pretty_N_go] writes in front of [s] shifts the
    accumulator and adds the number written. *)
Lemma digits_value_pretty_N_go (x : N) :
  ∃ p : N, ∀ acc s,
    digits_value acc (pretty_N_go x s) = digits_value (acc * p + x) s.
Proof.
  induction (N.lt_wf_0 x) as [x _ IH].
  destruct (decide (x = 0)%N) as [->|N0].
  - exists 1%N. intros acc s. rewrite pretty_N_go_0. f_equal. lia.
  - destruct (IH (x `div` 10)%N) as [p Hp].
    { apply N.div_lt; lia. }
    exists (10 * p)%N. intros acc s.
    rewrite pretty_N_go_step by lia. rewrite Hp. simpl.
    rewrite is_nat_pretty_N_char by (apply N.mod_lt; lia).
    f_equal. rewrite N2Nat.id.
    pose proof (N.div_mod x 10). lia.
Qed.

Lemma pretty_N_go_nonempty (x : N) (s : string) :
  s ≠ "" → pretty_N_go x s ≠ "".
Proof.
  revert s. induction (N.lt_wf_0 x) as [x _ IH]. intros s Hs.
  destruct (decide (x = 0)%N) as [->|N0]; [by rewrite pretty_N_go_0|].
  rewrite pretty_N_go_step by lia. apply IH; [apply N.div_lt; lia|done].
Qed.

Lemma int_converter_pretty (k : Z) : (0 ≤ k)%Z → int_converter (pretty k) = Some k.
Proof.
  intros H. destruct k as [|p|p]; [done| |lia].
  change (pretty (Z.pos p)) with (pretty_N_go (N.pos p) "").
  destruct (digits_value_pretty_N_go (N.pos p)) as [q Hq].
  unfold int_converter.
  destruct (pretty_N_go (N.pos p) "") eqn:E.
  - rewrite pretty_N_go_step in E by lia.
    by apply pretty_N_go_nonempty in E.
  - rewrite <- E, Hq. simpl. f_equal.
Qed.

(** GET on the path built for [k] is answered by [get_account k]. *)
Lemma dispatch_get_account_path (k : Z) :
  (0 ≤ k)%Z →
  routes.dispatch "GET" (get_account_path k) = Some (routes.get_account k).
Proof.
  intros H. unfold routes.dispatch, get_account_path. simpl.
  change ("" ++ pretty k) with (pretty k).
  by rewrite int_converter_pretty.
Qed.

End urls.

(** ** Create, and Create followed by Read: claims C5 and C1 *)

Lemma location_of_created (req : Request) (k : Z) (a : models.Account) :
  response_headers (created_response req k a) !! "Location"
  = Some (host_url req ++ get_account_path k).
Proof. unfold created_response. simpl. apply lookup_insert_eq. Qed.

Lemma response_id_created (req : Request) (k : Z) (a : models.Account) :
  response_id (created_response req k a) = models.id a.
Proof.
  unfold response_id, created_response, make_response, jsonify, data.
  rewrite field_serialize_id. by destruct (models.id a).
Qed.

Lemma create_with_id (a : models.Account) (s : models.Store) :
  (models.create a s).1 = with_id (Some (models.next_id s)) a.
Proof. done. Qed.

Lemma serve_create_account_valid
    (req : Request) (w : World) (payload : JSON) (a : models.Account) :
  content_type req = Some "application/json" →
  body req = Some payload →
  models.deserialize models.blank payload = inr a →
  serve routes.create_account req w
  = (created_response req (models.next_id (db w))
       (with_id (Some (models.next_id (db w))) a),
     {| db := (models.create a (db w)).2;
        log := log w
               ++ [JsonParse;
                   DbInsert (with_id (Some (models.next_id (db w))) a)] |}).
Proof.
  intros E B D. unfold serve. by rewrite create_account_run, B, D.
Qed.

(** Create succeeds exactly on a request whose header is
    [application/json] and whose body deserializes. *)
Lemma create_account_succeeds_iff (req : Request) (w : World) :
  (∃ resp w', routes.create_account req w = (inr resp, w'))
  ↔ content_type req = Some "application/json"
    ∧ ∃ payload a, body req = Some payload
        ∧ models.deserialize models.blank payload = inr a.
Proof.
  split.
  - intros (resp & w' & H).
    destruct (decide (content_type req = Some "application/json")) as [E|N].
    + split; [done|]. rewrite create_account_run in H by done.
      destruct (body req) as [payload|]; [|discriminate].
      destruct (models.deserialize models.blank payload) as [|a] eqn:D;
        [discriminate|].
      by exists payload, a.
    + rewrite create_account_unsupported in H by done. discriminate.
  - intros (E & payload & a & B & D).
    rewrite create_account_run, B, D by done. eauto.
Qed.

(** C5.  When Create succeeds, a record that was not there before is
    persisted under the id the store assigned, the answer is 201 with that
    record serialized as its body, and its [Location] header is the URL of
    the Read endpoint for the new id: GET on its path is [get_account] at
    that id. *)
Theorem create_account_success
    (req : Request) (w w' : World) (resp : Response) :
  store_wf (db w) →
  routes.create_account req w = (inr resp, w') →
  ∃ k a,
    k = models.next_id (db w)
    ∧ models.find k (db w) = None
    ∧ models.rows (db w') = <[k := a]> (models.rows (db w))
    ∧ models.id a = Some k
    ∧ status_code resp = status.HTTP_201_CREATED
    ∧ data resp = json_body (models.serialize a)
    ∧ response_headers resp !! "Location"
      = Some (host_url req ++ get_account_path k)
    ∧ routes.dispatch "GET" (get_account_path k)
      = Some (routes.get_account k)
    ∧ store_wf (db w').
Proof.
  intros W H.
  destruct (decide (content_type req = Some "application/json")) as [E|N];
    [|rewrite create_account_unsupported in H by done; discriminate].
  rewrite create_account_run in H by done.
  destruct (body req) as [payload|]; [|discriminate].
  destruct (models.deserialize models.blank payload) as [|a0]; [discriminate|].
  injection H as <- <-.
  exists (models.next_id (db w)), (models.create a0 (db w)).1.
  split_and!; try done;
    first [ by apply wf_next_id_free
          | by apply create_wf
          | apply dispatch_get_account_path; destruct W; lia ].
Qed.

Lemma create_account_success_witness :
  ∃ k a,
    k = 1
    ∧ models.find k (db fresh_world) = None
    ∧ models.rows (db jane_world) = <[k := a]> (models.rows (db fresh_world))
    ∧ models.id a = Some k
    ∧ status_code (serve routes.create_account (json_request jane) fresh_world).1
      = 201
    ∧ data (serve routes.create_account (json_request jane) fresh_world).1
      = json_body (models.serialize a)
    ∧ response_headers
        (serve routes.create_account (json_request jane) fresh_world).1
        !! "Location"
      = Some ("http://localhost" ++ get_account_path k)
    ∧ routes.dispatch "GET" (get_account_path k)
      = Some (routes.get_account k)
    ∧ store_wf (db jane_world).
Proof.
  apply (create_account_success (json_request jane) fresh_world jane_world
           (serve routes.create_account (json_request jane) fresh_world).1).
  - apply empty_wf.
  - vm_compute. reflexivity.
Defined.

Lemma response_id_error (e : Exception) : response_id (error_response e) = None.
Proof. done. Qed.

(** C1.  Create with a valid payload (one that deserializes) whose name is
    not empty, then Read on the id found in Create's answer: Read answers
    200 with the same body as Create, the serialized record made of the
    payload's fields and that id; its name and email are the payload's.
    Create does return an id, the store's next one, when the request's
    [Content-Type] is [application/json]. *)
Theorem create_then_read
    (req req' : Request) (w : World) (payload : JSON) (a : models.Account) :
  body req = Some payload →
  models.deserialize models.blank payload = inr a →
  models.name a ≠ Some "" →
  let created := serve routes.create_account req w in
  (content_type req = Some "application/json" →
     status_code created.1 = status.HTTP_201_CREATED
     ∧ response_id created.1 = Some (models.next_id (db w)))
  ∧ ∀ k,
      response_id created.1 = Some k →
      let read := serve (routes.get_account k) req' created.2 in
      status_code read.1 = status.HTTP_200_OK
      ∧ data read.1 = data created.1
      ∧ data read.1 = json_body (models.serialize (with_id (Some k) a))
      ∧ field (models.serialize (with_id (Some k) a)) "name"
        = field payload "name"
      ∧ field (models.serialize (with_id (Some k) a)) "email"
        = field payload "email".
Proof.
  intros B D _ created. subst created.
  destruct (decide (content_type req = Some "application/json")) as [E|N].
  - rewrite (serve_create_account_valid req w payload a) by done.
    cbn [fst snd]. rewrite response_id_created.
    split; [done|]. intros k [= <-].
    unfold serve. rewrite get_account_run.
    replace (models.find _ _)
      with (Some (with_id (Some (models.next_id (db w))) a))
      by (symmetry; apply lookup_insert_eq).
    cbn [fst snd].
    apply deserialize_inr in D as (n & m & Fn & Fm & Hn & Hm & _).
    split_and!; try done.
    + rewrite field_serialize_name, Fn. simpl. by rewrite Hn.
    + rewrite field_serialize_email, Fm. simpl. by rewrite Hm.
  - split; [done|]. unfold serve at 1.
    rewrite create_account_unsupported by done. cbn [fst].
    by rewrite response_id_error.
Qed.

Lemma create_then_read_witness :
  status_code (serve routes.create_account (json_request jane) fresh_world).1
  = 201
  ∧ response_id (serve routes.create_account (json_request jane) fresh_world).1
    = Some 1
  ∧ status_code (serve (routes.get_account 1) bare_request jane_world).1 = 200
  ∧ data (serve (routes.get_account 1) bare_request jane_world).1
    = data (serve routes.create_account (json_request jane) fresh_world).1.
Proof.
  destruct (create_then_read (json_request jane) bare_request fresh_world jane
              jane_account)
    as [C R]; [done|done|done|].
  destruct (C eq_refl) as [S I].
  destruct (R 1 I) as (S' & E & _).
  split; [exact S|]. split; [exact I|]. split; [exact S'|]. exact E.
Defined.

(** ** Update: claims C6 and C7 *)

Lemma serve_update_account_valid
    (account_id : Z) (req : Request) (w : World)
    (old parsed : models.Account) (payload : JSON) :
  content_type req = Some "application/json" →
  models.find account_id (db w) = Some old →
  body req = Some payload →
  models.deserialize models.blank payload = inr parsed →
  let new := with_id (models.id old) parsed in
  serve (routes.update_account account_id) req w
  = (ok_response (models.serialize new),
     {| db := models.update new (db w);
        log := log w ++ [DbSelect; JsonParse; DbUpdate new] |}).
Proof.
  intros E F B D new. unfold serve.
  rewrite update_account_run, F, B by done.
  by rewrite (deserialize_replaces old models.blank), D.
Qed.

(** C6 as stated does not hold: on an id that does not exist, a PUT whose
    [Content-Type] is [text/html] is answered 415, not 404; and on an id
    that exists, a PUT whose body does not deserialize is answered 400, not
    200. *)
Lemma update_absent_id_not_404 :
  models.find 999999 (db fresh_world) = None
  ∧ status_code
      (serve (routes.update_account 999999) (html_request jane) fresh_world).1
    = status.HTTP_415_UNSUPPORTED_MEDIA_TYPE
  ∧ status_code
      (serve (routes.update_account 999999) (html_request jane) fresh_world).1
    ≠ status.HTTP_404_NOT_FOUND
  ∧ models.find 1 (db jane_world) = Some (with_id (Some 1) jane_account)
  ∧ status_code
      (serve (routes.update_account 1) (json_request nameless) jane_world).1
    = status.HTTP_400_BAD_REQUEST.
Proof. split_and!; by vm_compute. Qed.

(** C6, amended.  For an Update whose [Content-Type] is [application/json]:
    when the id does not exist the answer is 404 and the table is only
    read; when it exists and the body deserializes, the parsed fields
    replace all the record's fields but its id, the new record is persisted
    under that id, and the answer is 200 with the new record serialized. *)
Theorem update_account_json (account_id : Z) (req : Request) (w : World) :
  content_type req = Some "application/json" →
  store_wf (db w) →
  let answer := serve (routes.update_account account_id) req w in
  match models.find account_id (db w) with
  | None =>
      status_code answer.1 = status.HTTP_404_NOT_FOUND
      ∧ db answer.2 = db w
      ∧ log answer.2 = (log w ++ [DbSelect])%list
  | Some old =>
      ∀ payload parsed,
        body req = Some payload →
        models.deserialize models.blank payload = inr parsed →
        let new := with_id (Some account_id) parsed in
        status_code answer.1 = status.HTTP_200_OK
        ∧ data answer.1 = json_body (models.serialize new)
        ∧ models.rows (db answer.2)
          = <[account_id := new]> (models.rows (db w))
        ∧ models.find account_id (db answer.2) = Some new
        ∧ store_wf (db answer.2)
  end.
Proof.
  intros E W answer. subst answer.
  destruct (models.find account_id (db w)) as [old|] eqn:F.
  - intros payload parsed B D new.
    rewrite (serve_update_account_valid account_id req w old parsed payload)
      by done.
    rewrite (wf_row_id _ _ _ W F). fold new.
    cbn [fst snd db].
    assert (models.update new (db w)
            = {| models.rows := <[account_id := new]> (models.rows (db w));
                 models.next_id := models.next_id (db w) |}) as -> by done.
    split_and!; try done.
    + apply lookup_insert_eq.
    + apply (update_wf new (db w) account_id W); [done|].
      unfold models.find in F. by rewrite F.
  - unfold serve. by rewrite update_account_run, F.
Qed.

Lemma update_account_json_witness :
  status_code
    (serve (routes.update_account 999999) (json_request jane) fresh_world).1
  = 404
  ∧ status_code
      (serve (routes.update_account 1) (json_request renamed) jane_world).1
    = 200
  ∧ models.find 1
      (db (serve (routes.update_account 1) (json_request renamed)
             jane_world).2)
    = Some (with_id (Some 1) renamed_account).
Proof.
  split.
  - apply (update_account_json 999999 (json_request jane) fresh_world);
      [done|apply empty_wf].
  - pose proof (update_account_json 1 (json_request renamed) jane_world
                  eq_refl (create_wf jane_account _ empty_wf)) as U.
    cbv zeta in U.
    replace (models.find 1 (db jane_world))
      with (Some (with_id (Some 1) jane_account)) in U by (by vm_compute).
    destruct (U renamed renamed_account eq_refl eq_refl) as (S & _ & _ & F & _).
    split; [exact S|exact F].
Defined.

(** C7 as stated does not hold: with a JSON body that has no [name], an
    Update of an id that does not exist is answered 404, and a Create whose
    [Content-Type] is [text/html] is answered 415; neither is a 400. *)
Lemma missing_name_not_always_400 :
  field nameless "name" = None
  ∧ models.find 999999 (db fresh_world) = None
  ∧ status_code
      (serve (routes.update_account 999999) (json_request nameless)
         fresh_world).1
    = status.HTTP_404_NOT_FOUND
  ∧ status_code
      (serve routes.create_account (html_request nameless) fresh_world).1
    = status.HTTP_415_UNSUPPORTED_MEDIA_TYPE.
Proof. split_and!; by vm_compute. Qed.

(** C7, amended.  For a request whose [Content-Type] is [application/json]
    and whose JSON body has no [name] field: Create answers 400 and
    persists nothing; Update of an id that exists answers 400 and leaves the
    original record as it was; Update of an id that does not exist answers
    404; and Update leaves the table as it was in both cases. *)
Theorem missing_name_bad_request
    (account_id : Z) (req : Request) (w : World) (payload : JSON) :
  content_type req = Some "application/json" →
  body req = Some payload →
  field payload "name" = None →
  let created := serve routes.create_account req w in
  let updated := serve (routes.update_account account_id) req w in
  status_code created.1 = status.HTTP_400_BAD_REQUEST
  ∧ db created.2 = db w
  ∧ db updated.2 = db w
  ∧ match models.find account_id (db w) with
    | Some original =>
        status_code updated.1 = status.HTTP_400_BAD_REQUEST
        ∧ models.find account_id (db updated.2) = Some original
    | None => status_code updated.1 = status.HTTP_404_NOT_FOUND
    end.
Proof.
  intros E B N created updated. subst created updated. unfold serve.
  rewrite create_account_run, update_account_run, B by done.
  destruct (deserialize_missing_name models.blank payload N) as [e ->].
  split; [done|]. split; [done|].
  destruct (models.find account_id (db w)) as [old|] eqn:F; [|done].
  destruct (deserialize_missing_name old payload N) as [e' ->].
  cbn [fst snd db logged]. by rewrite F.
Qed.

Lemma missing_name_bad_request_witness :
  status_code (serve routes.create_account (json_request nameless) jane_world).1
  = 400
  ∧ db (serve routes.create_account (json_request nameless) jane_world).2
    = db jane_world
  ∧ status_code
      (serve (routes.update_account 1) (json_request nameless) jane_world).1
    = 400
  ∧ models.find 1
      (db (serve (routes.update_account 1) (json_request nameless)
             jane_world).2)
    = Some (with_id (Some 1) jane_account).
Proof.
  destruct (missing_name_bad_request 1 (json_request nameless) jane_world
              nameless) as (C & S & _ & U); [done|done|done|].
  split; [exact C|]. split; [exact S|]. exact U.
Defined.

(** ** List: claim C8 *)

Section listing.

Implicit Types (req : Request) (w : World) (ops : list Op) (op : Op).

Lemma all_length (s : models.Store) :
  length (models.all s) = size (models.rows s).
Proof.
  unfold models.all. by rewrite length_fmap, length_map_to_list.
Qed.

Lemma elem_of_all (s : models.Store) (a : models.Account) :
  a ∈ models.all s ↔ ∃ k, models.find k s = Some a.
Proof.
  unfold models.all, models.find. rewrite list_elem_of_fmap. split.
  - intros ([k b] & -> & H). exists k. by apply elem_of_map_to_list in H.
  - intros (k & H). exists (k, a). split; [done|].
    by apply elem_of_map_to_list.
Qed.

(** One step changes the number of rows by what it created or deleted. *)
Lemma perform_size op w :
  store_wf (db w) →
  store_wf (db (perform op w).2)
  ∧ (size (models.rows (db (perform op w).2))
     + (if deletes op w then 1 else 0)
     = size (models.rows (db w)) + (if creates op w then 1 else 0))%nat.
Proof.
  intros W. destruct op as [req|account_id req]; unfold creates, deletes.
  - unfold perform, serve.
    destruct (decide (content_type req = Some "application/json")) as [E|N];
      [|by rewrite create_account_unsupported by done].
    rewrite create_account_run by done.
    destruct (body req) as [payload|]; [|done].
    destruct (models.deserialize models.blank payload) as [|a]; [done|].
    cbn [fst snd db]. split; [by apply create_wf|].
    rewrite bool_decide_eq_true_2 by done. simpl.
    rewrite map_size_insert_None by by apply wf_next_id_free.
    generalize (size (models.rows (db w))). lia.
  - unfold perform, serve. rewrite delete_account_run.
    destruct (models.find account_id (db w)) as [a|] eqn:F.
    + cbn [fst snd db]. split; [by apply delete_wf|].
      rewrite bool_decide_eq_true_2 by done.
      unfold models.delete. rewrite (wf_row_id _ _ _ W F). simpl.
      rewrite map_size_delete_Some by (unfold models.find in F; by rewrite F).
      assert (size (models.rows (db w)) ≠ 0%nat) as NZ.
      { intros Z0. apply map_size_empty_inv in Z0.
        unfold models.find in F. rewrite Z0 in F. by rewrite lookup_empty in F. }
      revert NZ. generalize (size (models.rows (db w))). lia.
    + cbn [fst snd db]. split; [done|].
      by rewrite bool_decide_eq_false_2 by (by intros [? ?]).
Qed.

Lemma run_size ops w :
  store_wf (db w) →
  store_wf (db (run ops w))
  ∧ (size (models.rows (db (run ops w))) + deleted ops w
     = size (models.rows (db w)) + created ops w)%nat.
Proof.
  revert w. induction ops as [|op ops IH]; intros w W; simpl.
  - split; [done|lia].
  - destruct (perform_size op w W) as [W' S].
    destruct (IH _ W') as [W'' S']. split; [done|].
    revert S S'.
    generalize (size (models.rows (db w))),
      (size (models.rows (db (perform op w).2))),
      (size (models.rows (db (run ops (perform op w).2)))).
    lia.
Qed.

End listing.

(** C8.  List always answers 200 with the serialized form of each persisted
    record, once per record, and with the empty sequence when there is
    none; it only reads the table.  After any sequence of Create and Delete
    requests served from the empty store, the length of the list is the
    number of records created minus the number of records deleted. *)
Theorem list_accounts_all_records :
  (∀ req w,
     let answer := serve routes.list_accounts req w in
     status_code answer.1 = status.HTTP_200_OK
     ∧ data answer.1
       = json_body (JArr (models.serialize <$> models.all (db w)))
     ∧ length (models.all (db w)) = size (models.rows (db w))
     ∧ (∀ a k, models.find k (db w) = Some a → a ∈ models.all (db w))
     ∧ (∀ a, a ∈ models.all (db w) → ∃ k, models.find k (db w) = Some a)
     ∧ (models.rows (db w) = ∅ → data answer.1 = json_body (JArr []))
     ∧ db answer.2 = db w)
  ∧ (∀ ops evs req,
       let start := {| db := models.empty; log := evs |} in
       let answer := serve routes.list_accounts req (run ops start) in
       ∃ l,
         status_code answer.1 = status.HTTP_200_OK
         ∧ data answer.1 = json_body (JArr l)
         ∧ (deleted ops start ≤ created ops start)%nat
         ∧ length l = (created ops start - deleted ops start)%nat).
Proof.
  split.
  - intros req w answer. subst answer. unfold serve.
    rewrite list_accounts_run. cbn [fst snd].
    split_and!; try done.
    + apply all_length.
    + intros a k H. apply elem_of_all. eauto.
    + intros a H. by apply elem_of_all.
    + intros H. unfold models.all. by rewrite H, map_to_list_empty.
  - intros ops evs req start answer. subst answer. unfold serve.
    rewrite list_accounts_run. cbn [fst snd].
    exists (models.serialize <$> models.all (db (run ops start))).
    destruct (run_size ops start empty_wf) as [_ S].
    rewrite length_fmap, all_length.
    change (size (models.rows (db start))) with (size (∅ : gmap Z models.Account)) in S.
    rewrite map_size_empty in S. revert S.
    generalize (size (models.rows (db (run ops start)))).
    intros n S. split_and!; try done; lia.
Qed.

(** ** The table's invariant holds in every reachable state *)

Section invariant.

Implicit Types (req : Request) (w : World).

Lemma update_account_wf (account_id : Z) req w :
  store_wf (db w) → store_wf (db (serve (routes.update_account account_id) req w).2).
Proof.
  intros W. unfold serve.
  destruct (decide (content_type req = Some "application/json")) as [E|N];
    [|by rewrite update_account_unsupported by done].
  rewrite update_account_run by done.
  destruct (models.find account_id (db w)) as [old|] eqn:F; [|done].
  destruct (body req) as [payload|]; [|done].
  destruct (models.deserialize old payload) as [|new] eqn:D; [done|].
  cbn [fst snd db].
  apply deserialize_inr in D as (_ & _ & _ & _ & _ & _ & I).
  apply (update_wf new (db w) account_id W).
  - by rewrite I, (wf_row_id _ _ _ W F).
  - unfold models.find in F. by rewrite F.
Qed.

(** Whatever rule answers a request, the invariant survives it. *)
Lemma dispatch_preserves_wf (method path : string) (view : App Response) req w :
  routes.dispatch method path = Some view →
  store_wf (db w) →
  store_wf (db (serve view req w).2).
Proof.
  intros H W. unfold routes.dispatch in H.
  repeat case_match; simplify_eq; try done;
    lazymatch goal with
    | |- context [routes.create_account] =>
        by destruct (perform_size (Create req) w W)
    | |- context [routes.get_account ?k] =>
        unfold serve; rewrite get_account_run;
        by destruct (models.find k (db w))
    | |- context [routes.update_account ?k] => by apply update_account_wf
    | |- context [routes.delete_account ?k] =>
        by destruct (perform_size (Delete k req) w W)
    end.
Qed.

Lemma reachable_wf w : reachable w → store_wf (db w).
Proof.
  induction 1 as [evs|method path view req w _ IH H].
  - apply empty_wf.
  - by eapply dispatch_preserves_wf.
Qed.

End invariant.

(** ** The concrete scenarios of the specification *)

Example scenario_create_then_get :
  let created := serve routes.create_account (json_request jane) fresh_world in
  status_code created.1 = 201
  ∧ response_id created.1 = Some 1
  ∧ (serve (routes.get_account 1) bare_request created.2).1
    = ok_response
        (models.serialize (with_id (Some 1) jane_account)).
Proof. split_and!; by vm_compute. Qed.

Example scenario_put_absent :
  status_code
    (serve (routes.update_account 999999) (json_request jane) fresh_world).1
  = 404.
Proof. by vm_compute. Qed.

Example scenario_delete_absent :
  (serve (routes.delete_account 999999) bare_request fresh_world).1
  = {| status_code := 204; data := text_body "";
       response_headers := {[ "Content-Type" := "text/html; charset=utf-8" ]} |}.
Proof. by vm_compute. Qed.

Example scenario_incomplete :
  status_code
    (serve routes.create_account (json_request incomplete) fresh_world).1
  = 400.
Proof. by vm_compute. Qed.

Example scenario_counting :
  let ops :=
    [ Create (json_request jane); Create (json_request jane);
      Delete 1 bare_request; Delete 7 bare_request;
      Create (html_request jane); Create (json_request incomplete) ] in
  created ops fresh_world = 2%nat
  ∧ deleted ops fresh_world = 1%nat
  ∧ length (models.all (db (run ops fresh_world))) = 1%nat.
Proof. split_and!; by vm_compute. Qed.


(** * Further properties of the handlers *)

Ltac status_unfold :=
  unfold status.HTTP_200_OK, status.HTTP_201_CREATED,
    status.HTTP_204_NO_CONTENT, status.HTTP_400_BAD_REQUEST,
    status.HTTP_404_NOT_FOUND, status.HTTP_415_UNSUPPORTED_MEDIA_TYPE in *.

(** ** Every routed request *)

Section routing.

Implicit Types (req : Request) (w : World) (view : App Response).

Lemma int_converter_nonneg (s : string) (k : Z) :
  int_converter s = Some k → (0 ≤ k)%Z.
Proof.
  unfold int_converter. destruct s; [done|].
  destruct (digits_value 0 _) as [n|]; [|done]. intros [= <-]. lia.
Qed.

Lemma String_eqb_true (s t : string) : String.eqb s t = true → s = t.
Proof. apply String.eqb_eq. Qed.

(** Whatever [dispatch] finds is one of the seven views, under the method
    of its rule and, where the rule has an id, at an id that is not
    negative. *)
Lemma dispatch_routed (method path : string) view :
  routes.dispatch method path = Some view → routed method view.
Proof.
  unfold routes.dispatch. intros H.
  repeat case_match; simplify_eq;
    repeat match goal with
      | E : String.eqb _ _ = true |- _ => apply String_eqb_true in E; subst
      end;
    constructor; by eapply int_converter_nonneg.
Qed.

End routing.

Section outcomes.

Implicit Types (req : Request) (w : World) (view : App Response).

Lemma serve_health req w :
  serve routes.health req w
  = (ok_response (JObj (list_to_map [("status", JStr "OK")])), w).
Proof. done. Qed.

Lemma serve_index req w : (serve routes.index req w).2 = w.
Proof. done. Qed.

Lemma serve_list_accounts req w :
  serve routes.list_accounts req w
  = (ok_response (JArr (models.serialize <$> models.all (db w))),
     logged [DbSelect] w).
Proof. unfold serve. by rewrite list_accounts_run. Qed.

Lemma serve_get_account (account_id : Z) req w :
  serve (routes.get_account account_id) req w
  = (match models.find account_id (db w) with
     | Some a => ok_response (models.serialize a)
     | None => error_response (not_found account_id)
     end, logged [DbSelect] w).
Proof.
  unfold serve. rewrite get_account_run.
  by destruct (models.find account_id (db w)).
Qed.

Lemma serve_delete_account (account_id : Z) req w :
  serve (routes.delete_account account_id) req w
  = (no_content,
     match models.find account_id (db w) with
     | Some a =>
         {| db := models.delete a (db w);
            log := log w ++ [DbSelect; DbDelete a] |}
     | None => logged [DbSelect] w
     end).
Proof.
  unfold serve. rewrite delete_account_run.
  by destruct (models.find account_id (db w)).
Qed.

Lemma create_account_failure req w :
  (400 ≤ status_code (serve routes.create_account req w).1)%Z →
  db (serve routes.create_account req w).2 = db w.
Proof.
  unfold serve.
  destruct (decide (content_type req = Some "application/json")) as [E|N];
    [|by rewrite create_account_unsupported by done].
  rewrite create_account_run by done.
  destruct (body req) as [payload|]; [|done].
  destruct (models.deserialize models.blank payload); [done|].
  cbn [fst snd]. unfold created_response, make_response, status_code.
  status_unfold. lia.
Qed.

Lemma update_account_failure (account_id : Z) req w :
  (400 ≤ status_code (serve (routes.update_account account_id) req w).1)%Z →
  db (serve (routes.update_account account_id) req w).2 = db w.
Proof.
  unfold serve.
  destruct (decide (content_type req = Some "application/json")) as [E|N];
    [|by rewrite update_account_unsupported by done].
  rewrite update_account_run by done.
  destruct (models.find account_id (db w)); [|done].
  destruct (body req) as [payload|]; [|done].
  destruct (models.deserialize _ payload); [done|].
  cbn [fst snd]. unfold ok_response, make_response, status_code.
  status_unfold. lia.
Qed.

End outcomes.

(** X1.  A request that is answered with an error, whatever the rule that
    answers it, leaves the table exactly as it was. *)
Theorem failed_request_writes_nothing
    (method path : string) (view : App Response) (req : Request) (w : World) :
  routes.dispatch method path = Some view →
  (400 ≤ status_code (serve view req w).1)%Z →
  db (serve view req w).2 = db w.
Proof.
  intros D. apply dispatch_routed in D.
  destruct D as [| | | |k _|k _|k _]; intros F.
  - done.
  - done.
  - by apply create_account_failure.
  - by rewrite serve_list_accounts.
  - by rewrite serve_get_account.
  - by apply update_account_failure.
  - rewrite serve_delete_account in F. cbn [fst] in F.
    unfold no_content, make_response, status_code in F. status_unfold. lia.
Qed.

Lemma failed_request_writes_nothing_witness :
  db (serve (routes.update_account 1) (json_request nameless) jane_world).2
  = db jane_world.
Proof.
  apply (failed_request_writes_nothing "PUT" "/accounts/1"
           (routes.update_account 1) (json_request nameless) jane_world).
  - by vm_compute.
  - by vm_compute.
Defined.

(** X2.  A GET request, whatever the rule that answers it, never changes
    the table. *)
Theorem get_request_writes_nothing
    (path : string) (view : App Response) (req : Request) (w : World) :
  routes.dispatch "GET" path = Some view →
  db (serve view req w).2 = db w.
Proof.
  intros D. apply dispatch_routed in D.
  inversion D; subst.
  - done.
  - done.
  - by rewrite serve_list_accounts.
  - by rewrite serve_get_account.
Qed.

Lemma get_request_writes_nothing_witness :
  db (serve routes.list_accounts bare_request jane_world).2 = db jane_world.
Proof.
  apply (get_request_writes_nothing "/accounts" routes.list_accounts
           bare_request jane_world).
  by vm_compute.
Defined.

Lemma create_and_update_status_aux
    (account_id : Z) (req : Request) (w : World) :
  status_code (serve routes.create_account req w).1
  = (if decide (content_type req = Some "application/json") then
       match body req with
       | None => status.HTTP_400_BAD_REQUEST
       | Some payload =>
           match models.deserialize models.blank payload with
           | inl _ => status.HTTP_400_BAD_REQUEST
           | inr _ => status.HTTP_201_CREATED
           end
       end
     else status.HTTP_415_UNSUPPORTED_MEDIA_TYPE)
  ∧ status_code (serve (routes.update_account account_id) req w).1
    = (if decide (content_type req = Some "application/json") then
         match models.find account_id (db w) with
         | None => status.HTTP_404_NOT_FOUND
         | Some old =>
             match body req with
             | None => status.HTTP_400_BAD_REQUEST
             | Some payload =>
                 match models.deserialize old payload with
                 | inl _ => status.HTTP_400_BAD_REQUEST
                 | inr _ => status.HTTP_200_OK
                 end
             end
         end
       else status.HTTP_415_UNSUPPORTED_MEDIA_TYPE).
Proof.
  unfold serve. case_decide as E.
  - rewrite create_account_run, update_account_run by done. split.
    + destruct (body req) as [payload|]; [|done].
      by destruct (models.deserialize models.blank payload).
    + destruct (models.find account_id (db w)) as [old|]; [|done].
      destruct (body req) as [payload|]; [|done].
      by destruct (models.deserialize old payload).
  - by rewrite create_account_unsupported, update_account_unsupported.
Qed.

(** X3.  The order in which Create and Update reject a request.  Create:
    415 unless the header is exactly [application/json], else 400 unless
    the body is JSON that deserializes, else 201.  Update: 415 first, then
    404 when the id is absent, then 400, else 200. *)
Theorem create_and_update_status
    (account_id : Z) (req : Request) (w : World) :
  status_code (serve routes.create_account req w).1
  = (if decide (content_type req = Some "application/json") then
       match body req with
       | None => status.HTTP_400_BAD_REQUEST
       | Some payload =>
           match models.deserialize models.blank payload with
           | inl _ => status.HTTP_400_BAD_REQUEST
           | inr _ => status.HTTP_201_CREATED
           end
       end
     else status.HTTP_415_UNSUPPORTED_MEDIA_TYPE)
  ∧ status_code (serve (routes.update_account account_id) req w).1
    = (if decide (content_type req = Some "application/json") then
         match models.find account_id (db w) with
         | None => status.HTTP_404_NOT_FOUND
         | Some old =>
             match body req with
             | None => status.HTTP_400_BAD_REQUEST
             | Some payload =>
                 match models.deserialize old payload with
                 | inl _ => status.HTTP_400_BAD_REQUEST
                 | inr _ => status.HTTP_200_OK
                 end
             end
         end
       else status.HTTP_415_UNSUPPORTED_MEDIA_TYPE).
Proof.
  unfold serve. case_decide as E.
  - rewrite create_account_run, update_account_run by done. split.
    + destruct (body req) as [payload|]; [|done].
      by destruct (models.deserialize models.blank payload).
    + destruct (models.find account_id (db w)) as [old|]; [|done].
      destruct (body req) as [payload|]; [|done].
      by destruct (models.deserialize old payload).
  - by rewrite create_account_unsupported, update_account_unsupported.
Qed.

(** X4.  List, Read, Delete, the health check and the root page do not
    look at the request: headers, body and host change neither the answer
    nor what happens to the table. *)
Theorem views_that_ignore_the_request
    (account_id : Z) (req req' : Request) (w : World) :
  serve routes.list_accounts req w = serve routes.list_accounts req' w
  ∧ serve (routes.get_account account_id) req w
    = serve (routes.get_account account_id) req' w
  ∧ serve (routes.delete_account account_id) req w
    = serve (routes.delete_account account_id) req' w
  ∧ serve routes.health req w = serve routes.health req' w
  ∧ serve routes.index req w = serve routes.index req' w.
Proof.
  by rewrite !serve_list_accounts, !serve_get_account, !serve_delete_account.
Qed.

(** ** How the handlers compose *)

Section composition.

Implicit Types (req : Request) (w : World) (account_id : Z).

(** An Update answered 200 found a record, had the JSON header and a body
    that deserializes. *)
Lemma update_account_ok_inv account_id req w :
  status_code (serve (routes.update_account account_id) req w).1
  = status.HTTP_200_OK →
  content_type req = Some "application/json"
  ∧ ∃ old payload parsed,
      models.find account_id (db w) = Some old
      ∧ body req = Some payload
      ∧ models.deserialize models.blank payload = inr parsed.
Proof.
  intros H.
  destruct (create_and_update_status_aux account_id req w) as [_ U].
  rewrite U in H. clear U.
  case_decide as E; [|discriminate]. split; [done|].
  destruct (models.find account_id (db w)) as [old|]; [|discriminate].
  destruct (body req) as [payload|]; [|discriminate].
  rewrite (deserialize_replaces old models.blank) in H.
  destruct (models.deserialize models.blank payload) as [|parsed] eqn:D;
    [discriminate|].
  by exists old, payload, parsed.
Qed.

Lemma find_update (a : models.Account) (s : models.Store) (k j : Z) :
  models.id a = Some k →
  models.find j (models.update a s)
  = if decide (k = j) then Some a else models.find j s.
Proof.
  intros I. unfold models.find, models.update. rewrite I. simpl.
  apply lookup_insert.
Qed.

Lemma find_delete (a : models.Account) (s : models.Store) (k j : Z) :
  models.id a = Some k →
  models.find j (models.delete a s)
  = if decide (k = j) then None else models.find j s.
Proof.
  intros I. unfold models.find, models.delete. rewrite I. simpl.
  apply lookup_delete.
Qed.

Lemma find_create (a : models.Account) (s : models.Store) (j : Z) :
  models.find j (models.create a s).2
  = if decide (models.next_id s = j)
    then Some (with_id (Some (models.next_id s)) a)
    else models.find j s.
Proof. unfold models.find, models.create. simpl. apply lookup_insert. Qed.

End composition.

(** What a successful Update leaves behind. *)
Lemma serve_update_account_ok
    (account_id : Z) (req : Request) (w : World) :
  store_wf (db w) →
  status_code (serve (routes.update_account account_id) req w).1
  = status.HTTP_200_OK →
  ∃ new,
    models.id new = Some account_id
    ∧ (∃ payload parsed,
         body req = Some payload
         ∧ models.deserialize models.blank payload = inr parsed
         ∧ new = with_id (Some account_id) parsed)
    ∧ content_type req = Some "application/json"
    ∧ (serve (routes.update_account account_id) req w).1
      = ok_response (models.serialize new)
    ∧ db (serve (routes.update_account account_id) req w).2
      = models.update new (db w).
Proof.
  intros W H.
  destruct (update_account_ok_inv _ _ _ H)
    as (E & old & payload & parsed & F & B & D).
  rewrite (serve_update_account_valid account_id req w old parsed payload)
    by done.
  rewrite (wf_row_id _ _ _ W F).
  exists (with_id (Some account_id) parsed). split_and!; try done.
  by exists payload, parsed.
Qed.

(** X5.  After an Update answered 200, Read on the same id answers 200 with
    the body Update returned, and the id in that body is the id of the
    path, whatever the request body said. *)
Theorem update_then_read
    (account_id : Z) (req req' : Request) (w : World) :
  store_wf (db w) →
  let updated := serve (routes.update_account account_id) req w in
  status_code updated.1 = status.HTTP_200_OK →
  let read := serve (routes.get_account account_id) req' updated.2 in
  status_code read.1 = status.HTTP_200_OK
  ∧ data read.1 = data updated.1
  ∧ response_id read.1 = Some account_id.
Proof.
  intros W updated H read. subst updated read.
  destruct (serve_update_account_ok account_id req w W H)
    as (new & I & _ & _ & R & S).
  rewrite serve_get_account, S, R, (find_update _ _ account_id) by done.
  rewrite decide_True by done. cbn [fst snd].
  split; [done|]. split; [done|].
  unfold response_id, ok_response, make_response, jsonify, data.
  by rewrite field_serialize_id, I.
Qed.

Lemma update_then_read_witness :
  data (serve (routes.get_account 1) bare_request
          (serve (routes.update_account 1) (json_request renamed)
             jane_world).2).1
  = data (serve (routes.update_account 1) (json_request renamed)
            jane_world).1.
Proof.
  apply (update_then_read 1 (json_request renamed) bare_request jane_world).
  - apply (create_wf jane_account _ empty_wf).
  - by vm_compute.
Defined.

(** X6.  Update is idempotent: the same request sent again after an Update
    answered 200 gets the same answer and leaves the table as the first
    one left it. *)
Theorem update_twice
    (account_id : Z) (req : Request) (w : World) :
  store_wf (db w) →
  let updated := serve (routes.update_account account_id) req w in
  status_code updated.1 = status.HTTP_200_OK →
  let again := serve (routes.update_account account_id) req updated.2 in
  again.1 = updated.1 ∧ db again.2 = db updated.2.
Proof.
  intros W updated H again. subst updated again.
  destruct (serve_update_account_ok account_id req w W H)
    as (new & I & (payload & parsed & B & D & N) & E & R & S).
  assert (models.find account_id
            (db (serve (routes.update_account account_id) req w).2)
          = Some new) as F.
  { rewrite S, (find_update _ _ account_id) by done. by rewrite decide_True. }
  rewrite (serve_update_account_valid account_id req _ new parsed payload)
    by done.
  rewrite I, <- N, R, S. cbn [fst snd db]. split; [done|].
  unfold models.update. rewrite I. simpl. by rewrite insert_insert_eq.
Qed.

Lemma update_twice_witness :
  (serve (routes.update_account 1) (json_request renamed)
     (serve (routes.update_account 1) (json_request renamed) jane_world).2).1
  = (serve (routes.update_account 1) (json_request renamed) jane_world).1.
Proof.
  apply (update_twice 1 (json_request renamed) jane_world).
  - apply (create_wf jane_account _ empty_wf).
  - by vm_compute.
Defined.

(** X7.  After a Delete the id is gone: Read answers 404, an Update with
    the JSON header answers 404, a second Delete changes nothing more, and
    every other id still holds what it held. *)
Theorem delete_then_gone
    (account_id : Z) (req req1 req2 req3 : Request) (w : World) :
  store_wf (db w) →
  let gone := (serve (routes.delete_account account_id) req w).2 in
  models.find account_id (db gone) = None
  ∧ status_code (serve (routes.get_account account_id) req1 gone).1
    = status.HTTP_404_NOT_FOUND
  ∧ (content_type req2 = Some "application/json" →
       status_code (serve (routes.update_account account_id) req2 gone).1
       = status.HTTP_404_NOT_FOUND)
  ∧ db (serve (routes.delete_account account_id) req3 gone).2 = db gone
  ∧ ∀ k, k ≠ account_id → models.find k (db gone) = models.find k (db w).
Proof.
  intros W gone.
  assert (models.find account_id (db gone) = None
          ∧ ∀ k, k ≠ account_id →
              models.find k (db gone) = models.find k (db w)) as [G O].
  { subst gone. rewrite serve_delete_account. cbn [snd].
    destruct (models.find account_id (db w)) as [a|] eqn:F; [|done].
    cbn [db]. pose proof (wf_row_id _ _ _ W F) as I. split.
    - rewrite (find_delete _ _ account_id) by done. by rewrite decide_True.
    - intros k N. rewrite (find_delete _ _ account_id) by done.
      by rewrite decide_False. }
  split_and!; [done| | | |done].
  - by rewrite serve_get_account, G.
  - intros E.
    destruct (create_and_update_status_aux account_id req2 gone) as [_ ->].
    by rewrite decide_True, G.
  - by rewrite serve_delete_account, G.
Qed.

Lemma delete_then_gone_witness :
  models.find 1 (db (serve (routes.delete_account 1) bare_request
                       jane_world).2) = None
  ∧ status_code
      (serve (routes.get_account 1) bare_request
         (serve (routes.delete_account 1) bare_request jane_world).2).1
    = 404.
Proof.
  destruct (delete_then_gone 1 bare_request bare_request bare_request
              bare_request jane_world
              (create_wf jane_account _ empty_wf)) as (G & R & _).
  split; [exact G|exact R].
Defined.

(** X8.  A Create and an Update touch one row each: after a Create every
    record that was there reads as before, and after an Update of one id
    every other id does. *)
Theorem writes_touch_one_row
    (account_id : Z) (req : Request) (w : World) :
  store_wf (db w) →
  (∀ k a,
     models.find k (db w) = Some a →
     models.find k (db (serve routes.create_account req w).2) = Some a)
  ∧ (∀ k,
       k ≠ account_id →
       models.find k (db (serve (routes.update_account account_id) req w).2)
       = models.find k (db w)).
Proof.
  intros W. split.
  - intros k a F. unfold serve.
    destruct (decide (content_type req = Some "application/json")) as [E|N];
      [|by rewrite create_account_unsupported by done].
    rewrite create_account_run by done.
    destruct (body req) as [payload|]; [|done].
    destruct (models.deserialize models.blank payload) as [|parsed]; [done|].
    cbn [fst snd db]. rewrite find_create. rewrite decide_False; [done|].
    intros <-. unfold models.find in F.
    by rewrite (wf_next_id_free _ W) in F.
  - intros k N.
    destruct (decide (status_code
                        (serve (routes.update_account account_id) req w).1
                      = status.HTTP_200_OK)) as [H|H].
    + destruct (serve_update_account_ok account_id req w W H)
        as (new & I & _ & _ & _ & ->).
      rewrite (find_update _ _ account_id) by done. by rewrite decide_False.
    + f_equal. unfold serve.
      destruct (create_and_update_status_aux account_id req w) as [_ U].
      rewrite U in H. clear U. case_decide as E;
        [|by rewrite update_account_unsupported by done].
      rewrite update_account_run by done.
      destruct (models.find account_id (db w)) as [old|]; [|done].
      destruct (body req) as [payload|]; [|done].
      by destruct (models.deserialize old payload).
Qed.

Lemma writes_touch_one_row_witness :
  models.find 1 (db (serve routes.create_account (json_request renamed)
                       jane_world).2)
  = Some (with_id (Some 1) jane_account).
Proof.
  destruct (writes_touch_one_row 1 (json_request renamed) jane_world
              (create_wf jane_account _ empty_wf)) as [C _].
  apply C. by vm_compute.
Defined.

(** A Create answered 201 had the JSON header and a body that
    deserializes. *)
Lemma create_account_created_inv (req : Request) (w : World) :
  status_code (serve routes.create_account req w).1
  = status.HTTP_201_CREATED →
  content_type req = Some "application/json"
  ∧ ∃ payload parsed,
      body req = Some payload
      ∧ models.deserialize models.blank payload = inr parsed.
Proof.
  intros H.
  destruct (create_and_update_status_aux 0 req w) as [C _].
  rewrite C in H. clear C.
  case_decide as E; [|discriminate]. split; [done|].
  destruct (body req) as [payload|]; [|discriminate].
  destruct (models.deserialize models.blank payload) as [|parsed] eqn:D;
    [discriminate|].
  by exists payload, parsed.
Qed.

(** X9.  After a Create answered 201, List holds the body Create returned
    and is one entry longer than the table was. *)
Theorem create_then_list (req req' : Request) (w : World) :
  store_wf (db w) →
  let created := serve routes.create_account req w in
  status_code created.1 = status.HTTP_201_CREATED →
  ∃ l j,
    data (serve routes.list_accounts req' created.2).1 = json_body (JArr l)
    ∧ data created.1 = json_body j
    ∧ j ∈ l
    ∧ length l = S (length (models.all (db w))).
Proof.
  intros W created H. subst created.
  destruct (create_account_created_inv req w H)
    as (E & payload & parsed & B & D).
  rewrite (serve_create_account_valid req w payload parsed) by done.
  rewrite serve_list_accounts. cbn [fst snd db].
  set (k := models.next_id (db w)). set (a := with_id (Some k) parsed).
  exists (models.serialize <$> models.all (models.create parsed (db w)).2),
    (models.serialize a).
  split; [done|]. split; [done|]. split.
  - apply list_elem_of_fmap. exists a. split; [done|].
    apply elem_of_all. exists k. rewrite find_create.
    by rewrite decide_True.
  - rewrite length_fmap, !all_length. simpl.
    by rewrite map_size_insert_None by by apply wf_next_id_free.
Qed.

Lemma create_then_list_witness :
  ∃ l j,
    data (serve routes.list_accounts bare_request
            (serve routes.create_account (json_request renamed)
               jane_world).2).1
    = json_body (JArr l)
    ∧ data (serve routes.create_account (json_request renamed) jane_world).1
      = json_body j
    ∧ j ∈ l
    ∧ length l = 2%nat.
Proof.
  apply (create_then_list (json_request renamed) bare_request jane_world).
  - apply (create_wf jane_account _ empty_wf).
  - by vm_compute.
Defined.

(** X10.  Create is not idempotent: the same request answered 201 twice in
    a row makes two records under two different ids, and each id then
    reads back the body its Create returned. *)
Theorem create_twice (req req' : Request) (w : World) :
  let first := serve routes.create_account req w in
  status_code first.1 = status.HTTP_201_CREATED →
  let second := serve routes.create_account req first.2 in
  status_code second.1 = status.HTTP_201_CREATED
  ∧ ∃ k1 k2,
      response_id first.1 = Some k1
      ∧ response_id second.1 = Some k2
      ∧ k1 ≠ k2
      ∧ data (serve (routes.get_account k1) req' second.2).1 = data first.1
      ∧ data (serve (routes.get_account k2) req' second.2).1 = data second.1.
Proof.
  intros first H second. subst first second.
  destruct (create_account_created_inv req w H)
    as (E & payload & parsed & B & D).
  rewrite !(serve_create_account_valid req _ payload parsed) by done.
  cbn [fst snd db]. split; [done|].
  set (k := models.next_id (db w)).
  exists k, (k + 1). rewrite !response_id_created.
  split; [done|]. split; [done|]. split; [lia|].
  rewrite !serve_get_account. cbn [fst snd db].
  rewrite !find_create. cbn [models.create snd models.next_id]. fold k.
  by repeat case_decide; try lia.
Qed.

Lemma create_twice_witness :
  status_code
    (serve routes.create_account (json_request jane) jane_world).1 = 201
  ∧ ∃ k1 k2,
      response_id (serve routes.create_account (json_request jane)
                     fresh_world).1 = Some k1
      ∧ response_id (serve routes.create_account (json_request jane)
                       jane_world).1 = Some k2
      ∧ k1 ≠ k2.
Proof.
  destruct (create_twice (json_request jane) bare_request fresh_world)
    as (S & k1 & k2 & I1 & I2 & N & _); [by vm_compute|].
  split; [exact S|]. exists k1, k2. split; [exact I1|]. split; [exact I2|].
  exact N.
Defined.

(** ** The URL rules *)

Lemma account_url_path (k : Z) : tests.account_url k = get_account_path k.
Proof. done. Qed.

Lemma dispatch_account_path (k : Z) :
  (0 ≤ k)%Z →
  routes.dispatch "GET" (get_account_path k) = Some (routes.get_account k)
  ∧ routes.dispatch "PUT" (get_account_path k)
    = Some (routes.update_account k)
  ∧ routes.dispatch "DELETE" (get_account_path k)
    = Some (routes.delete_account k)
  ∧ routes.dispatch "POST" (get_account_path k) = None.
Proof.
  intros H. unfold routes.dispatch, get_account_path. simpl.
  change ("" ++ pretty k) with (pretty k).
  by rewrite int_converter_pretty.
Qed.

(** X11.  The path built for an id that is not negative leads GET, PUT and
    DELETE to Read, Update and Delete at that id, and POST nowhere; the
    path built for a negative id matches no rule, whatever the method. *)
Theorem account_path_rules (k : Z) :
  ((0 ≤ k)%Z →
     routes.dispatch "GET" (get_account_path k) = Some (routes.get_account k)
     ∧ routes.dispatch "PUT" (get_account_path k)
       = Some (routes.update_account k)
     ∧ routes.dispatch "DELETE" (get_account_path k)
       = Some (routes.delete_account k)
     ∧ routes.dispatch "POST" (get_account_path k) = None)
  ∧ ((k < 0)%Z →
       ∀ method, routes.dispatch method (get_account_path k) = None).
Proof.
  split; [apply dispatch_account_path|].
  intros H method. destruct k as [|p|p]; [lia|lia|].
  unfold routes.dispatch, get_account_path. simpl.
  by change ("" ++ pretty (Z.neg p)) with (String "-"%char (pretty p)).
Qed.

(** ** What the test suite relies on *)

Section suite.

Implicit Types (account : models.Account) (w : World).

(** An account whose name and email are set serializes to a body that
    deserializes to the same fields. *)
Lemma deserialize_serialize (self account : models.Account) (n m : string) :
  models.name account = Some n →
  models.email account = Some m →
  models.deserialize self (models.serialize account)
  = inr (with_id (models.id self) account).
Proof.
  destruct account as [i ? ? a p d]. simpl. intros -> ->.
  by destruct i, a, p, d.
Qed.

Lemma post_accounts (json : JSON) w :
  tests.post tests.BASE_URL json w
  = Some (serve routes.create_account (json_request json) w).
Proof. done. Qed.

Lemma client_account_url (method : string) (k : Z)
    (content_type : option string) (json : option JSON) w :
  tests.client_open method (tests.account_url k) content_type json w
  = match routes.dispatch method (get_account_path k) with
    | Some view =>
        Some (serve view
                {| headers :=
                     match content_type, json with
                     | Some ct, _ => {[ "Content-Type" := ct ]}
                     | None, Some _ => {[ "Content-Type" := "application/json" ]}
                     | None, None => ∅
                     end;
                   body := json; host_url := "http://localhost" |} w)
    | None => None
    end.
Proof.
  unfold tests.client_open. rewrite account_url_path.
  by destruct content_type, json.
Qed.

End suite.

(** X12.  As [test_create_account] expects: posting the serialization of
    any account whose name and email are set is answered 201, and the body
    is that account under the id the store gave it, name included. *)
Theorem post_serialized_account
    (account : models.Account) (n m : string) (w : World) :
  models.name account = Some n →
  models.email account = Some m →
  ∃ response w' data,
    tests.post tests.BASE_URL (models.serialize account) w
    = Some (response, w')
    ∧ status_code response = status.HTTP_201_CREATED
    ∧ tests.get_json response = Some data
    ∧ data
      = models.serialize (with_id (Some (models.next_id (db w))) account)
    ∧ field data "name" = Some (JStr n).
Proof.
  intros Hn Hm. rewrite post_accounts.
  rewrite (serve_create_account_valid (json_request (models.serialize account))
             w (models.serialize account) (with_id None account));
    [|done|done|by apply (deserialize_serialize models.blank account n m)].
  eexists _, _, _. split; [done|]. split; [done|]. split; [done|].
  split; [done|].
  rewrite field_serialize_name. simpl. by rewrite Hn.
Qed.

Lemma post_serialized_account_witness :
  ∃ response w' data,
    tests.post tests.BASE_URL (models.serialize renamed_account) jane_world
    = Some (response, w')
    ∧ status_code response = 201
    ∧ tests.get_json response = Some data
    ∧ data = models.serialize (with_id (Some 2) renamed_account)
    ∧ field data "name" = Some (JStr "Updated Name").
Proof.
  apply (post_serialized_account renamed_account "Updated Name"
           "jane@example.com" jane_world); done.
Defined.

(** The body returned for a record, with its name replaced, deserializes
    to that record under the new name. *)
Lemma deserialize_renamed
    (self account : models.Account) (n m new_name : string) :
  models.name account = Some n →
  models.email account = Some m →
  ∃ d,
    models.serialize account = JObj d
    ∧ d !! "id" = Some (json_of_opt_int (models.id account))
    ∧ models.deserialize self (JObj (<["name" := JStr new_name]> d))
      = inr {| models.id := models.id self;
               models.name := Some new_name;
               models.email := Some m;
               models.address := models.address account;
               models.phone_number := models.phone_number account;
               models.date_joined := models.date_joined account |}.
Proof.
  destruct account as [i ? ? a p d]. simpl. intros -> ->.
  eexists. split; [done|]. split; [done|].
  by destruct i, a, p, d.
Qed.

(** X13.  As [test_update_account] expects, for any account whose name and
    email are set and any new name: create it, replace the name in the
    body that came back, PUT that body to the path of the id that came
    back; the answer is 200 with the new name, the same email and the same
    id. *)
Theorem create_then_rename
    (account : models.Account) (n m new_name : string) (w : World) :
  models.name account = Some n →
  models.email account = Some m →
  (0 ≤ models.next_id (db w))%Z →
  ∃ r1 w1 d k r2 w2 data,
    tests.post tests.BASE_URL (models.serialize account) w = Some (r1, w1)
    ∧ status_code r1 = status.HTTP_201_CREATED
    ∧ tests.get_json r1 = Some (JObj d)
    ∧ d !! "id" = Some (JInt k)
    ∧ tests.put (tests.account_url k)
        (JObj (<["name" := JStr new_name]> d)) w1
      = Some (r2, w2)
    ∧ status_code r2 = status.HTTP_200_OK
    ∧ tests.get_json r2 = Some data
    ∧ field data "name" = Some (JStr new_name)
    ∧ field data "email" = Some (JStr m)
    ∧ field data "id" = Some (JInt k).
Proof.
  intros Hn Hm P. rewrite post_accounts.
  rewrite (serve_create_account_valid (json_request (models.serialize account))
             w (models.serialize account) (with_id None account));
    [|done|done|by apply (deserialize_serialize models.blank account n m)].
  set (k := models.next_id (db w)).
  set (stored := with_id (Some k) (with_id None account)).
  destruct (deserialize_renamed models.blank stored n m new_name Hn Hm)
    as (d & S & I & D).
  set (payload := JObj (<["name" := JStr new_name]> d)) in *.
  eexists _, _, d, k, _, _, _. split; [done|]. split; [done|].
  split.
  { unfold tests.get_json, created_response, make_response, jsonify, data.
    by rewrite S. }
  split; [exact I|].
  unfold tests.put. rewrite client_account_url.
  destruct (dispatch_account_path k P) as (_ & -> & _).
  match type of D with _ = inr ?x => set (parsed := x) in * end.
  rewrite (serve_update_account_valid k _ _ stored parsed payload);
    [|done|by cbn [db]; rewrite find_create, decide_True|done|exact D].
  split; [done|]. split; [done|]. split; [done|].
  by rewrite field_serialize_name, field_serialize_email, field_serialize_id.
Qed.

Lemma create_then_rename_witness :
  ∃ r1 w1 d k r2 w2 data,
    tests.post tests.BASE_URL (models.serialize jane_account) fresh_world
    = Some (r1, w1)
    ∧ status_code r1 = 201
    ∧ tests.get_json r1 = Some (JObj d)
    ∧ d !! "id" = Some (JInt k)
    ∧ tests.put (tests.account_url k)
        (JObj (<["name" := JStr "Updated Name"]> d)) w1
      = Some (r2, w2)
    ∧ status_code r2 = 200
    ∧ tests.get_json r2 = Some data
    ∧ field data "name" = Some (JStr "Updated Name")
    ∧ field data "email" = Some (JStr "jane@example.com")
    ∧ field data "id" = Some (JInt k).
Proof.
  apply (create_then_rename jane_account "Jane Doe" "jane@example.com"
           "Updated Name" fresh_world); done.
Defined.

(** X14.  As [test_get_account] and [test_delete_account] expect, for any
    account whose name and email are set: create it, GET the path of the
    id that came back: 200 with that id; DELETE the same path: 204; and a
    GET after that: 404. *)
Theorem create_then_get_then_delete
    (account : models.Account) (n m : string) (w : World) :
  models.name account = Some n →
  models.email account = Some m →
  (0 ≤ models.next_id (db w))%Z →
  ∃ r1 w1 d k r2 w2 data r3 w3 r4 w4,
    tests.post tests.BASE_URL (models.serialize account) w = Some (r1, w1)
    ∧ status_code r1 = status.HTTP_201_CREATED
    ∧ tests.get_json r1 = Some (JObj d)
    ∧ d !! "id" = Some (JInt k)
    ∧ tests.get (tests.account_url k) w1 = Some (r2, w2)
    ∧ status_code r2 = status.HTTP_200_OK
    ∧ tests.get_json r2 = Some data
    ∧ field data "id" = d !! "id"
    ∧ tests.delete (tests.account_url k) w2 = Some (r3, w3)
    ∧ status_code r3 = status.HTTP_204_NO_CONTENT
    ∧ tests.get (tests.account_url k) w3 = Some (r4, w4)
    ∧ status_code r4 = status.HTTP_404_NOT_FOUND.
Proof.
  intros Hn Hm P. rewrite post_accounts.
  rewrite (serve_create_account_valid (json_request (models.serialize account))
             w (models.serialize account) (with_id None account));
    [|done|done|by apply (deserialize_serialize models.blank account n m)].
  set (k := models.next_id (db w)).
  set (stored := with_id (Some k) (with_id None account)).
  destruct (deserialize_renamed models.blank stored n m n Hn Hm)
    as (d & S & I & _).
  destruct (dispatch_account_path k P) as (G & _ & Dl & _).
  assert (models.find k (models.create (with_id None account) (db w)).2
          = Some stored) as F by (by rewrite find_create, decide_True).
  eexists _, _, d, k, _, _, _, _, _, _, _.
  split; [reflexivity|]. split; [done|]. split.
  { unfold tests.get_json, created_response, make_response, jsonify, data.
    by rewrite S. }
  split; [exact I|]. split.
  { unfold tests.get. rewrite client_account_url, G, serve_get_account.
    cbn [db]. rewrite F. reflexivity. }
  split; [done|]. split; [done|].
  split; [by rewrite field_serialize_id, I|]. split.
  { unfold tests.delete. rewrite client_account_url, Dl, serve_delete_account.
    cbn [db logged]. rewrite F. reflexivity. }
  split; [done|]. split.
  { unfold tests.get. rewrite client_account_url, G, serve_get_account.
    cbn [db]. rewrite (find_delete stored _ k k) by done.
    rewrite decide_True by done. reflexivity. }
  done.
Qed.

Lemma create_then_get_then_delete_witness :
  ∃ r1 w1 d k r2 w2 data r3 w3 r4 w4,
    tests.post tests.BASE_URL (models.serialize jane_account) fresh_world
    = Some (r1, w1)
    ∧ status_code r1 = 201
    ∧ tests.get_json r1 = Some (JObj d)
    ∧ d !! "id" = Some (JInt k)
    ∧ tests.get (tests.account_url k) w1 = Some (r2, w2)
    ∧ status_code r2 = 200
    ∧ tests.get_json r2 = Some data
    ∧ field data "id" = d !! "id"
    ∧ tests.delete (tests.account_url k) w2 = Some (r3, w3)
    ∧ status_code r3 = 204
    ∧ tests.get (tests.account_url k) w3 = Some (r4, w4)
    ∧ status_code r4 = 404.
Proof.
  apply (create_then_get_then_delete jane_account "Jane Doe"
           "jane@example.com" fresh_world); done.
Defined.

(** X15.  As the three tests on a missing account expect, for any id that
    is not negative and not only 999999: once [setUp] has emptied the
    table, GET answers 404, PUT with any JSON body answers 404, DELETE
    answers 204, and the list is empty. *)
Theorem absent_after_setUp (k : Z) (json : JSON) (w : World) :
  (0 ≤ k)%Z →
  let clean := tests.setUp w in
  (status_code ∘ fst) <$> tests.get (tests.account_url k) clean
  = Some status.HTTP_404_NOT_FOUND
  ∧ (status_code ∘ fst) <$> tests.put (tests.account_url k) json clean
    = Some status.HTTP_404_NOT_FOUND
  ∧ (status_code ∘ fst) <$> tests.delete (tests.account_url k) clean
    = Some status.HTTP_204_NO_CONTENT
  ∧ (data ∘ fst) <$> tests.get tests.BASE_URL clean
    = Some (json_body (JArr [])).
Proof.
  intros P clean.
  assert (∀ j, models.find j (db clean) = None) as F.
  { intros j. unfold models.find, clean, tests.setUp. simpl.
    apply lookup_empty. }
  unfold tests.get, tests.put, tests.delete.
  rewrite !client_account_url.
  destruct (dispatch_account_path k P) as (-> & -> & -> & _).
  rewrite serve_get_account, serve_delete_account, F.
  split; [done|]. split; [|done].
  destruct (create_and_update_status_aux k
              {| headers := {[ "Content-Type" := "application/json" ]};
                 body := Some json; host_url := "http://localhost" |} clean)
    as [_ U].
  simpl. rewrite U. by rewrite decide_True, F.
Qed.

Lemma absent_after_setUp_witness :
  (status_code ∘ fst) <$> tests.get (tests.account_url 999999)
                            (tests.setUp jane_world)
  = Some 404
  ∧ (status_code ∘ fst) <$> tests.put (tests.account_url 999999)
                              (models.serialize jane_account)
                              (tests.setUp jane_world)
    = Some 404
  ∧ (status_code ∘ fst) <$> tests.delete (tests.account_url 999999)
                              (tests.setUp jane_world)
    = Some 204.
Proof.
  destruct (absent_after_setUp 999999 (models.serialize jane_account)
              jane_world) as (G & U & D & _); [done|].
  split; [exact G|]. split; [exact U|exact D].
Defined.

(** ** Ids in the states the service can reach *)

Lemma wf_ids_are_keys (s : models.Store) :
  store_wf s →
  models.id <$> models.all s = Some <$> (map_to_list (models.rows s)).*1.
Proof.
  intros [_ W]. unfold models.all.
  assert (Forall (λ ka, models.rows s !! ka.1 = Some ka.2)
            (map_to_list (models.rows s))) as H.
  { apply Forall_forall. intros [k a] E. by apply elem_of_map_to_list in E. }
  induction H as [|[k a] l E _ IH]; [done|].
  csimpl in *. apply W in E as [-> _]. f_equal. exact IH.
Qed.

(** X16.  In every state the service can reach from the empty table, the
    records listed have pairwise different ids, and a Read answered 200
    returns a body whose id is the id that was asked for. *)
Theorem reachable_ids (w : World) (account_id : Z) (req : Request) :
  reachable w →
  NoDup (models.id <$> models.all (db w))
  ∧ (status_code (serve (routes.get_account account_id) req w).1
     = status.HTTP_200_OK →
     response_id (serve (routes.get_account account_id) req w).1
     = Some account_id).
Proof.
  intros R. pose proof (reachable_wf w R) as W. split.
  - rewrite (wf_ids_are_keys _ W).
    apply (NoDup_fmap_2 Some), NoDup_fst_map_to_list.
  - rewrite serve_get_account. cbn [fst].
    destruct (models.find account_id (db w)) as [a|] eqn:F; [|done].
    intros _. unfold response_id, ok_response, make_response, jsonify, data.
    by rewrite field_serialize_id, (wf_row_id _ _ _ W F).
Qed.

Lemma reachable_ids_witness :
  NoDup (models.id <$> models.all (db jane_world))
  ∧ (status_code (serve (routes.get_account 1) bare_request jane_world).1
     = 200 →
     response_id (serve (routes.get_account 1) bare_request jane_world).1
     = Some 1).
Proof.
  apply (reachable_ids jane_world 1 bare_request).
  apply (reachable_step "POST" "/accounts" routes.create_account
           (json_request jane) fresh_world).
  - apply (reachable_start []).
  - reflexivity.
Defined.
